(** * Codex Sales App: the analysis server ([src/server/index.js])

    A shallow embedding of the request-scoped functions of the Express
    server: [normalizeRecords], [summarizeLocally], [buildPrompt],
    [runOpenAIAnalysis], [logAnalysis], [formatContexts] and the
    [POST /api/analyze] handler, over a model of the JavaScript values
    that reach them (the values of a JSON request body).

    Conventions.
    - A JavaScript number is an IEEE 754 binary64 value: Rocq's primitive
      [float]; [+] and [-] on numbers are [PrimFloat.add] and
      [PrimFloat.sub].
    - A JavaScript string is a [string]; non-ASCII text is held as its
      UTF-8 bytes.  Concatenation and equality do not depend on the
      encoding; [slice] and [length] count bytes, which are the UTF-16
      code units of JavaScript on ASCII text.
    - A [throw] is an explicit [Throw] completion; every function of the
      server that can raise returns a [Completion].
    - An object is its list of own properties in creation order; its
      prototype is [Object.prototype], whose properties are reached by
      [protoGet]. *)

From Stdlib Require Import List String Ascii ZArith NArith Bool Lia Permutation.
From Stdlib Require Import Floats.PrimFloat Floats.SpecFloat Floats.FloatOps.
Import ListNotations.
Local Open Scope list_scope.
Local Open Scope string_scope.
Set Warnings "-register-all".

(** ** Errors and completions *)

Inductive JsError : Type :=
| TypeError (message : string)
| SyntaxError (message : string)
| HostError (message : string).

(** [error.message] *)
Definition messageOf (e : JsError) : string :=
  match e with
  | TypeError m | SyntaxError m | HostError m => m
  end.

Inductive Completion (A : Type) : Type :=
| Normal (a : A)
| Throw (e : JsError).
Arguments Normal {A} a.
Arguments Throw {A} e.

Definition bind {A B : Type} (c : Completion A) (k : A -> Completion B)
  : Completion B :=
  match c with
  | Normal a => k a
  | Throw e => Throw e
  end.

Notation "x <- c ;; k" := (bind c (fun x => k))
  (at level 61, c at next level, right associativity).

(** [mapM f l]: apply [f] left to right, stopping at the first [Throw]
    (a callback raising inside [Array.prototype.map]). *)
Definition mapM {A B : Type} (f : A -> Completion B)
  : list A -> Completion (list B) :=
  fix go (l : list A) : Completion (list B) :=
    match l with
    | [] => Normal []
    | x :: l' => y <- f x ;; ys <- go l' ;; Normal (y :: ys)
    end.

(** [filterM f l]: [Array.prototype.filter] with a predicate that can raise. *)
Definition filterM {A : Type} (f : A -> Completion bool)
  : list A -> Completion (list A) :=
  fix go (l : list A) : Completion (list A) :=
    match l with
    | [] => Normal []
    | x :: l' => b <- f x ;; r <- go l' ;; Normal (if b then x :: r else r)
    end.

(** [foldM f l a]: [Array.prototype.reduce] with a callback that can raise. *)
Fixpoint foldM {A B : Type} (f : B -> A -> Completion B) (l : list A) (acc : B)
  : Completion B :=
  match l with
  | [] => Normal acc
  | x :: l' => acc' <- f acc x ;; foldM f l' acc'
  end.

(** ** Values *)

(** Built-in objects that a property read on a plain object can return
    through its prototype. *)
Inductive Builtin : Type :=
| ObjectPrototype
| NativeFunction (name : string).

Inductive JsValue : Type :=
| JsUndefined
| JsNull
| JsBool (b : bool)
| JsNum (n : float)
| JsStr (s : string)
| JsArr (items : list JsValue)
| JsObj (props : list (string * JsValue))
| JsBuiltin (b : Builtin).

(** ToBoolean: the falsy values are [undefined], [null], [false], [+0], [-0],
    [NaN] and the empty string. *)
Definition ToBoolean (v : JsValue) : bool :=
  match v with
  | JsUndefined | JsNull => false
  | JsBool b => b
  | JsNum n => negb (is_zero n || is_nan n)
  | JsStr s => negb (String.eqb s "")
  | JsArr _ | JsObj _ | JsBuiltin _ => true
  end.

(** [a || b] on values whose evaluation has no effect. *)
Definition JsOr (a b : JsValue) : JsValue := if ToBoolean a then a else b.

Definition isNullish (v : JsValue) : bool :=
  match v with
  | JsUndefined | JsNull => true
  | _ => false
  end.

(** ** Strings *)

Definition nl : string := String (ascii_of_nat 10) "".

(** [Array.prototype.join] on strings. *)
Fixpoint join (sep : string) (l : list string) : string :=
  match l with
  | [] => ""
  | [x] => x
  | x :: l' => x ++ sep ++ join sep l'
  end.

(** [s.startsWith(p)] *)
Fixpoint startsWith (p s : string) : bool :=
  match p, s with
  | EmptyString, _ => true
  | String a p', String b s' => Ascii.eqb a b && startsWith p' s'
  | String _ _, EmptyString => false
  end.

(** [s.includes(p)] *)
Fixpoint includes (p s : string) : bool :=
  startsWith p s ||
  match s with
  | EmptyString => false
  | String _ s' => includes p s'
  end.

(** A string is truthy when it is not empty. *)
Definition nonEmpty (s : string) : bool := negb (String.eqb s "").

(** [s.slice(0, n)] *)
Definition slice0 (n : nat) (s : string) : string := substring 0 n s.

(** The characters of a string, each as a string. *)
Fixpoint chars (s : string) : list string :=
  match s with
  | EmptyString => []
  | String a s' => String a "" :: chars s'
  end.

Definition digitChar (d : N) : ascii := ascii_of_N (48 + d).

(** Decimal digits of a natural number, most significant first. *)
Fixpoint decDigits (fuel : nat) (n : N) (acc : string) : string :=
  match fuel with
  | O => acc
  | S fuel' =>
      let acc' := String (digitChar (n mod 10)) acc in
      if (n <? 10)%N then acc' else decDigits fuel' (n / 10)%N acc'
  end.

Definition decimal (n : N) : string := decDigits (S (N.to_nat (N.log2 n))) n "".

Definition isDigit (a : ascii) : bool :=
  let c := N_of_ascii a in ((48 <=? c) && (c <=? 57))%N.

Definition digitValue (a : ascii) : N := N_of_ascii a - 48.

(** Value of a digit string, read left to right from [acc]. *)
Fixpoint readDecimal (s : string) (acc : N) : N :=
  match s with
  | EmptyString => acc
  | String a s' => readDecimal s' (10 * acc + digitValue a)%N
  end.

Fixpoint allDigits (s : string) : bool :=
  match s with
  | EmptyString => true
  | String a s' => isDigit a && allDigits s'
  end.

Definition bytes (l : list nat) : string :=
  fold_right (fun c s => String (ascii_of_nat c) s) "" l.

(** WhiteSpace and LineTerminator code points, as UTF-8. *)
Definition whiteSpace : list string :=
  map bytes
    ([ [9]; [10]; [11]; [12]; [13]; [32]; [194; 160]; [225; 154; 128] ] ++
     map (fun b => [226; 128; b]) (seq 128 11) ++
     [ [226; 128; 168]; [226; 128; 169]; [226; 128; 175]; [226; 129; 159];
       [227; 128; 128]; [239; 187; 191] ]).

Fixpoint revString (s acc : string) : string :=
  match s with
  | EmptyString => acc
  | String a s' => revString s' (String a acc)
  end.

Fixpoint trimStartWith (ws : list string) (fuel : nat) (s : string) : string :=
  match fuel with
  | O => s
  | S fuel' =>
      match find (fun w => startsWith w s) ws with
      | Some w =>
          trimStartWith ws fuel'
            (substring (String.length w) (String.length s - String.length w) s)
      | None => s
      end
  end.

(** [s.trim()] *)
Definition trim (s : string) : string :=
  let s1 := trimStartWith whiteSpace (String.length s) s in
  revString
    (trimStartWith (map (fun w => revString w "") whiteSpace)
       (String.length s1) (revString s1 "")) "".

(** ** Objects *)

Fixpoint lookup {A : Type} (k : string) (props : list (string * A)) : option A :=
  match props with
  | [] => None
  | (k', v) :: rest => if String.eqb k k' then Some v else lookup k rest
  end.

Definition hasOwn (k : string) (props : list (string * JsValue)) : bool :=
  match lookup k props with
  | Some _ => true
  | None => false
  end.

(** The function-valued properties of [Object.prototype]. *)
Definition objectPrototypeMethods : list string :=
  [ "__defineGetter__"; "__defineSetter__"; "hasOwnProperty";
    "__lookupGetter__"; "__lookupSetter__"; "isPrototypeOf";
    "propertyIsEnumerable"; "toString"; "valueOf"; "toLocaleString" ].

(** A property read that reaches [Object.prototype]: [__proto__] is an
    accessor returning the prototype of the receiver, [constructor] is the
    function [Object], the other names are methods. *)
Definition protoGet (k : string) : JsValue :=
  if String.eqb k "__proto__" then JsBuiltin ObjectPrototype
  else if String.eqb k "constructor" then JsBuiltin (NativeFunction "Object")
  else if existsb (String.eqb k) objectPrototypeMethods
       then JsBuiltin (NativeFunction k)
  else JsUndefined.

(** [o[k]] on a plain object with own properties [props]. *)
Definition getProp (props : list (string * JsValue)) (k : string) : JsValue :=
  match lookup k props with
  | Some v => v
  | None => protoGet k
  end.

(** [v.k] on a receiver other than [undefined] and [null], for the
    property names the server reads from request data ([customer],
    [account], [amount], ..., [salesData], [filters]).  None of these names
    is an index, [length] or a name defined on the prototypes of arrays,
    strings, numbers or booleans, so on those receivers the read yields
    [undefined]. *)
Definition field (v : JsValue) (k : string) : JsValue :=
  match v with
  | JsObj props => getProp props k
  | _ => JsUndefined
  end.

(** [v.k]: reading a property of [undefined] or [null] raises a TypeError. *)
Definition Get (v : JsValue) (k : string) : Completion JsValue :=
  match v with
  | JsUndefined =>
      Throw (TypeError ("Cannot read properties of undefined (reading '" ++ k ++ "')"))
  | JsNull =>
      Throw (TypeError ("Cannot read properties of null (reading '" ++ k ++ "')"))
  | _ => Normal (field v k)
  end.

(** An array index: the canonical decimal string of an integer in
    [0, 2^32 - 2]. *)
Definition arrayIndex (k : string) : option N :=
  match k with
  | EmptyString => None
  | String a rest =>
      if allDigits k && (negb (Ascii.eqb a "0"%char) || String.eqb rest "")
      then let n := readDecimal k 0 in
           if (n <=? 4294967294)%N then Some n else None
      else None
  end.

Fixpoint insertByIndex {A : Type} (e : N * A) (l : list (N * A)) : list (N * A) :=
  match l with
  | [] => [e]
  | e' :: l' => if (fst e <? fst e')%N then e :: l else e' :: insertByIndex e l'
  end.

(** OrdinaryOwnPropertyKeys: array-index keys in ascending numeric order,
    then the other keys in creation order. *)
Definition ownEntries {A : Type} (props : list (string * A)) : list (string * A) :=
  let indexed :=
    fold_left
      (fun acc p => match arrayIndex (fst p) with
                    | Some n => insertByIndex (n, p) acc
                    | None => acc
                    end) props [] in
  map snd indexed ++
  filter (fun p => match arrayIndex (fst p) with Some _ => false | None => true end) props.

(** [o[k] = v] as CreateDataProperty/Set on own data properties: an
    existing key keeps its position. *)
Fixpoint setOwn {A : Type} (props : list (string * A)) (k : string) (v : A)
  : list (string * A) :=
  match props with
  | [] => [(k, v)]
  | (k', v') :: rest =>
      if String.eqb k k' then (k', v) :: rest else (k', v') :: setOwn rest k v
  end.

(** [Object.entries(o)] *)
Definition ObjectEntries (o : JsValue) : Completion (list (string * JsValue)) :=
  match o with
  | JsUndefined | JsNull =>
      Throw (TypeError "Cannot convert undefined or null to object")
  | JsObj props => Normal (ownEntries props)
  | JsArr items =>
      Normal (combine (map (fun i => decimal (N.of_nat i)) (seq 0 (List.length items))) items)
  | JsStr s =>
      let cs := chars s in
      Normal (combine (map (fun i => decimal (N.of_nat i)) (seq 0 (List.length cs)))
                      (map JsStr cs))
  | JsBool _ | JsNum _ | JsBuiltin _ => Normal []
  end.

(** * The ECMAScript runtime

    The built-in functions the server calls.  The server's functions are
    defined over any [Runtime]; [Node.runtime] below is the runtime of
    Node.js with the [en-US] locale. *)

Record Runtime : Type := {
  (** [JSON.parse(text)]: the parsed value, or a SyntaxError. *)
  JSON_parse : string -> Completion JsValue;
  (** [JSON.stringify(value, null, 2)], for a [value] other than
      [undefined] (the server passes it truthy request values only). *)
  JSON_stringify : JsValue -> string;
  (** StringToNumber: the number a string converts to, [NaN] when it is not
      a numeric literal. *)
  StringToNumber : string -> float;
  (** Number::toString *)
  NumberToString : float -> string;
  (** [Number.prototype.toLocaleString()] in the default locale. *)
  NumberToLocaleString : float -> string;
  (** [Function.prototype.toString()] of the built-in function of that name. *)
  NativeSource : string -> string
}.

Module Node.

(** ** Numbers and their decimal forms

    [Number::toString], [StringToNumber] and [toLocaleString], computed
    exactly on the mantissa and exponent of the binary64 value. *)

(** [num / den] (with [0 <= num], [0 < den]) multiplied by [2^(-e)], as a
    fraction. *)
Definition scaleByPow2 (num den e : Z) : Z * Z :=
  if (0 <=? e)%Z then (num, den * 2 ^ e)%Z else (num * 2 ^ (- e), den)%Z.

(** The binary64 value nearest to [num / den], ties to even: the rounding of
    a numeric literal. *)
Definition roundRatio (neg : bool) (num den : Z) : float :=
  if (num =? 0)%Z then (if neg then neg_zero else zero)
  else
    let e0 := (Z.log2 num - Z.log2 den - 52)%Z in
    let q0 := (let '(n, d) := scaleByPow2 num den e0 in n / d)%Z in
    let e1 := (if q0 <? 2 ^ 52 then e0 - 1 else e0)%Z in
    let e := Z.max e1 (-1074) in
    let '(n, d) := scaleByPow2 num den e in
    let q := (n / d)%Z in
    let r := (n mod d)%Z in
    let q' := (if 2 * r <? d then q
               else if d <? 2 * r then q + 1
               else if Z.even q then q else q + 1)%Z in
    if (q' =? 0)%Z then (if neg then neg_zero else zero)
    else if ((972 <=? e) || ((971 <=? e) && (2 ^ 53 <=? q')))%Z
         then (if neg then neg_infinity else infinity)
    else SF2Prim (S754_finite neg (Z.to_pos q') e).

(** The number denoted by the decimal [m * 10^e10]. *)
Definition decimalToFloat (neg : bool) (m e10 : Z) : float :=
  if (0 <=? e10)%Z then roundRatio neg (m * 10 ^ e10) 1
  else roundRatio neg m (10 ^ (- e10)).

(** [v = num / den > 0]: the [n] with [10^(n-1) <= v < 10^n]. *)
Fixpoint smallMagnitude (fuel : nat) (num den : Z) (j : Z) : Z :=
  match fuel with
  | O => (1 - j)%Z
  | S fuel' => if (den <=? num * 10 ^ j)%Z then (1 - j)%Z
               else smallMagnitude fuel' num den (j + 1)%Z
  end.

Definition magnitude (num den : Z) : Z :=
  if (den <=? num)%Z
  then Z.of_nat (String.length (decimal (Z.to_N (num / den))))
  else smallMagnitude 400 num den 1.

Fixpoint stripZeros (fuel : nat) (s p : Z) : Z * Z :=
  match fuel with
  | O => (s, p)
  | S fuel' => if ((s mod 10 =? 0) && negb (s =? 0))%Z
               then stripZeros fuel' (s / 10)%Z (p + 1)%Z else (s, p)
  end.

(** The shortest decimal [s * 10^p] that reads back as [x] (and, of these,
    the closest to [x]), searched with [k = 17 - fuel + 1, ...] digits. *)
Fixpoint shortestFrom (fuel : nat) (x : float) (num den n k : Z) : Z * Z :=
  let p := (n - k)%Z in
  let '(tn, td) := (if 0 <=? p then (num, den * 10 ^ p) else (num * 10 ^ (- p), den))%Z in
  let lo := (tn / td)%Z in
  let r := (tn mod td)%Z in
  let hi := (lo + 1)%Z in
  let okLo := ((0 <? lo)%Z && (decimalToFloat false lo p =? x)%float)%bool in
  let okHi := (decimalToFloat false hi p =? x)%float in
  let loCloser := ((2 * r <? td) || ((2 * r =? td) && Z.even lo))%Z in
  match fuel with
  | O => (lo, p)
  | S fuel' =>
      if (r =? 0)%Z && okLo then (lo, p)
      else if okLo && okHi then (if loCloser then (lo, p) else (hi, p))
      else if okLo then (lo, p)
      else if okHi then (hi, p)
      else shortestFrom fuel' x num den n (k + 1)%Z
  end.

(** Digits [d1...dk] and exponent [n] of a finite [x > 0]:
    [x] prints as [0.d1...dk * 10^n]. *)
Definition shortestDigits (x : float) : string * Z :=
  match Prim2SF x with
  | S754_finite _ m e =>
      let '(num, den) := scaleByPow2 (Zpos m) 1 (- e) in
      let n := magnitude num den in
      let '(s, p) := shortestFrom 17 x num den n 1 in
      let '(s', p') := stripZeros 400 s p in
      let ds := decimal (Z.to_N s') in
      (ds, (p' + Z.of_nat (String.length ds))%Z)
  | _ => ("0", 1%Z)
  end.

Fixpoint zeros (n : nat) : string :=
  match n with
  | O => ""
  | S n' => String "0" (zeros n')
  end.

(** Number::toString, radix 10. *)
Definition NumberToString (x : float) : string :=
  if is_nan x then "NaN"
  else if is_zero x then "0"
  else if is_infinity x then (if get_sign x then "-Infinity" else "Infinity")
  else
    let '(ds, n) := shortestDigits (abs x) in
    let k := Z.of_nat (String.length ds) in
    let sign := if get_sign x then "-" else "" in
    let body :=
      if ((k <=? n) && (n <=? 21))%Z then ds ++ zeros (Z.to_nat (n - k))
      else if ((0 <? n) && (n <=? 21))%Z
           then substring 0 (Z.to_nat n) ds ++ "." ++
                substring (Z.to_nat n) (Z.to_nat (k - n)) ds
      else if ((-6 <? n) && (n <=? 0))%Z then "0." ++ zeros (Z.to_nat (- n)) ++ ds
      else
        let e := (n - 1)%Z in
        let es := (if (e <? 0)%Z then "-" else "+") ++ decimal (Z.to_N (Z.abs e)) in
        if (k =? 1)%Z then ds ++ "e" ++ es
        else substring 0 1 ds ++ "." ++ substring 1 (Z.to_nat (k - 1)) ds ++ "e" ++ es in
    sign ++ body.

(** Groups of three digits, separated by commas. *)
Fixpoint groupFrom (s : string) (lead : nat) : string :=
  match s with
  | EmptyString => ""
  | String a s' =>
      match lead with
      | O => String "," (String a (groupFrom s' 2))
      | S lead' => String a (groupFrom s' lead')
      end
  end.

Definition groupThousands (s : string) : string :=
  let len := String.length s in
  groupFrom s (match Nat.modulo len 3 with O => 3 | r => r end).

Fixpoint dropTrailingZeros (s : string) : string :=
  match s with
  | EmptyString => ""
  | String a s' =>
      let t := dropTrailingZeros s' in
      if String.eqb t "" && Ascii.eqb a "0"%char then "" else String a t
  end.

(** [x.toLocaleString()] for [en-US]: the shortest decimal of [x] rounded
    half away from zero to at most three fraction digits, the integer part
    grouped by thousands. *)
Definition NumberToLocaleString (x : float) : string :=
  if is_nan x then "NaN"
  else
    let sign := if get_sign x then "-" else "" in
    if is_infinity x
    then sign ++ String (ascii_of_nat 226) (String (ascii_of_nat 136) (String (ascii_of_nat 158) ""))
    else if is_zero x then sign ++ "0"
    else
      let '(ds, n) := shortestDigits (abs x) in
      let s := Z.of_N (readDecimal ds 0) in
      let sh := (n - Z.of_nat (String.length ds) + 3)%Z in
      let t := (if 0 <=? sh then s * 10 ^ sh
                else let d := 10 ^ (- sh) in
                     if 2 * (s mod d) <? d then s / d else s / d + 1)%Z in
      let ip := decimal (Z.to_N (t / 1000)) in
      let fr := decimal (Z.to_N (t mod 1000)) in
      let fr3 := dropTrailingZeros (zeros (3 - String.length fr) ++ fr) in
      sign ++ groupThousands ip ++ (if String.eqb fr3 "" then "" else "." ++ fr3).

(** ** StringToNumber *)

Fixpoint spanDigits (s : string) : string * string :=
  match s with
  | EmptyString => ("", "")
  | String a s' =>
      if isDigit a then let '(d, r) := spanDigits s' in (String a d, r)
      else ("", s)
  end.

(** ExponentPart, or nothing: the exponent. *)
Definition parseExponent (s : string) : option Z :=
  match s with
  | EmptyString => Some 0%Z
  | String c r =>
      if Ascii.eqb c "e"%char || Ascii.eqb c "E"%char then
        let '(neg, ds) :=
          match r with
          | String "+"%char r' => (false, r')
          | String "-"%char r' => (true, r')
          | _ => (false, r)
          end in
        if negb (String.eqb ds "") && allDigits ds
        then Some (if neg then (- Z.of_N (readDecimal ds 0))%Z
                   else Z.of_N (readDecimal ds 0))
        else None
      else None
  end.

(** StrUnsignedDecimalLiteral, after its sign. *)
Definition parseDecimalLiteral (neg : bool) (s : string) : option float :=
  if String.eqb s "Infinity" then Some (if neg then neg_infinity else infinity)
  else
    let '(ip, r1) := spanDigits s in
    let '(fp, r2) :=
      match r1 with
      | String "."%char r => spanDigits r
      | _ => ("", r1)
      end in
    if String.eqb ip "" && String.eqb fp "" then None
    else
      match parseExponent r2 with
      | Some e =>
          Some (decimalToFloat neg (Z.of_N (readDecimal (ip ++ fp) 0))
                  (e - Z.of_nat (String.length fp)))
      | None => None
      end.

Definition radixDigit (radix : N) (a : ascii) : option N :=
  let c := N_of_ascii a in
  let d := (if (48 <=? c) && (c <=? 57) then Some (c - 48)
            else if (97 <=? c) && (c <=? 102) then Some (c - 87)
            else if (65 <=? c) && (c <=? 70) then Some (c - 55)
            else None)%N in
  match d with
  | Some v => if (v <? radix)%N then Some v else None
  | None => None
  end.

Fixpoint readRadix (radix : N) (s : string) (acc : N) : option N :=
  match s with
  | EmptyString => Some acc
  | String a s' =>
      match radixDigit radix a with
      | Some d => readRadix radix s' (radix * acc + d)%N
      | None => None
      end
  end.

(** NonDecimalIntegerLiteral: [0x], [0o], [0b] and their digits. *)
Definition parseRadixLiteral (s : string) : option float :=
  match s with
  | String "0"%char (String p ds) =>
      let radix :=
        if Ascii.eqb p "x"%char || Ascii.eqb p "X"%char then Some 16%N
        else if Ascii.eqb p "o"%char || Ascii.eqb p "O"%char then Some 8%N
        else if Ascii.eqb p "b"%char || Ascii.eqb p "B"%char then Some 2%N
        else None in
      match radix with
      | Some r =>
          if String.eqb ds "" then None
          else option_map (fun n => roundRatio false (Z.of_N n) 1) (readRadix r ds 0)
      | None => None
      end
  | _ => None
  end.

Definition StringToNumber (s : string) : float :=
  let t := trim s in
  if String.eqb t "" then zero
  else
    match parseRadixLiteral t with
    | Some x => x
    | None =>
        let r :=
          match t with
          | String "+"%char u => parseDecimalLiteral false u
          | String "-"%char u => parseDecimalLiteral true u
          | _ => parseDecimalLiteral false t
          end in
        match r with
        | Some x => x
        | None => nan
        end
    end.
(** ** JSON.stringify(value, null, 2) *)

Definition dquote : string := String (ascii_of_nat 34) "".

Definition hexChar (n : N) : ascii :=
  if (n <? 10)%N then digitChar n else ascii_of_N (87 + n).

(** QuoteJSONString, one character. *)
Definition quoteChar (a : ascii) : string :=
  let c := N_of_ascii a in
  if (c =? 8)%N then "\b"
  else if (c =? 9)%N then "\t"
  else if (c =? 10)%N then "\n"
  else if (c =? 12)%N then "\f"
  else if (c =? 13)%N then "\r"
  else if (c =? 34)%N then "\" ++ dquote
  else if (c =? 92)%N then "\\"
  else if (c <? 32)%N
       then "\u00" ++ String (hexChar (c / 16)) (String (hexChar (c mod 16)) "")
  else String a "".

Fixpoint quoteChars (s : string) : string :=
  match s with
  | EmptyString => ""
  | String a s' => quoteChar a ++ quoteChars s'
  end.

Definition quoteJSON (s : string) : string := dquote ++ quoteChars s ++ dquote.

(** SerializeJSONProperty at indentation [indent]; [None] is [undefined]
    (the value is skipped in an object and printed [null] in an array). *)
Fixpoint serialize (indent : string) (v : JsValue) : option string :=
  let inner := indent ++ "  " in
  let sep := "," ++ nl ++ inner in
  match v with
  | JsUndefined => None
  | JsBuiltin (NativeFunction _) => None
  | JsBuiltin ObjectPrototype => Some "{}"
  | JsNull => Some "null"
  | JsBool b => Some (if b then "true" else "false")
  | JsNum n =>
      Some (if is_nan n || is_infinity n then "null" else NumberToString n)
  | JsStr s => Some (quoteJSON s)
  | JsArr items =>
      match items with
      | [] => Some "[]"
      | _ =>
          let parts :=
            map (fun x => match serialize inner x with
                          | Some s => s
                          | None => "null"
                          end) items in
          Some ("[" ++ nl ++ inner ++ join sep parts ++ nl ++ indent ++ "]")
      end
  | JsObj props =>
      let each := map (fun p => let '(k, x) := p in (k, serialize inner x)) props in
      let parts :=
        flat_map (fun p => match snd p with
                           | Some s => [quoteJSON (fst p) ++ ": " ++ s]
                           | None => []
                           end) (ownEntries each) in
      match parts with
      | [] => Some "{}"
      | _ => Some ("{" ++ nl ++ inner ++ join sep parts ++ nl ++ indent ++ "}")
      end
  end.

(** [JSON.stringify] of [undefined] or of a function is [undefined]; the
    server prints its result in a template literal, where that reads
    "undefined". *)
Definition JSON_stringify (v : JsValue) : string :=
  match serialize "" v with
  | Some s => s
  | None => "undefined"
  end.

(** ** JSON.parse *)

Definition isJsonSpace (a : ascii) : bool :=
  let c := N_of_ascii a in ((c =? 32) || (c =? 9) || (c =? 10) || (c =? 13))%N.

Fixpoint skipWs (s : string) : string :=
  match s with
  | String a s' => if isJsonSpace a then skipWs s' else s
  | EmptyString => s
  end.

(** UTF-8 encoding of a code point (a lone surrogate is encoded as is). *)
Definition utf8 (cp : N) : string :=
  let b (n : N) := ascii_of_N n in
  (if cp <? 128 then String (b cp) ""
   else if cp <? 2048
        then String (b (192 + cp / 64)) (String (b (128 + cp mod 64)) "")
   else if cp <? 65536
        then String (b (224 + cp / 4096))
               (String (b (128 + (cp / 64) mod 64)) (String (b (128 + cp mod 64)) ""))
   else String (b (240 + cp / 262144))
          (String (b (128 + (cp / 4096) mod 64))
             (String (b (128 + (cp / 64) mod 64)) (String (b (128 + cp mod 64)) ""))))%N.

Definition hex4 (a b c d : ascii) : option N :=
  match radixDigit 16 a, radixDigit 16 b, radixDigit 16 c, radixDigit 16 d with
  | Some x, Some y, Some z, Some w => Some (((x * 16 + y) * 16 + z) * 16 + w)%N
  | _, _, _, _ => None
  end.

Definition flushHigh (high : option N) : string :=
  match high with
  | Some h => utf8 h
  | None => ""
  end.

(** The characters of a JSON string after its opening quote, and the text
    after its closing quote.  [high] is a high surrogate read from a
    [\uXXXX] escape and waiting for its low surrogate. *)
Fixpoint parseStringBody (s : string) (high : option N) : option (string * string) :=
  match s with
  | EmptyString => None
  | String a s1 =>
      let c := N_of_ascii a in
      if (c =? 34)%N then Some (flushHigh high, s1)
      else if (c <? 32)%N then None
      else if (c =? 92)%N then
        match s1 with
        | String e s2 =>
            let simple (ch : N) :=
              option_map (fun r => (flushHigh high ++ String (ascii_of_N ch) (fst r), snd r))
                         (parseStringBody s2 None) in
            if Ascii.eqb e "u"%char then
              match s2 with
              | String h1 (String h2 (String h3 (String h4 s3))) =>
                  match hex4 h1 h2 h3 h4 with
                  | Some cu =>
                      if ((55296 <=? cu) && (cu <=? 56319))%N then
                        option_map (fun r => (flushHigh high ++ fst r, snd r))
                                   (parseStringBody s3 (Some cu))
                      else
                        match high with
                        | Some h =>
                            if ((56320 <=? cu) && (cu <=? 57343))%N then
                              option_map
                                (fun r => (utf8 (65536 + (h - 55296) * 1024 + (cu - 56320))
                                           ++ fst r, snd r))
                                (parseStringBody s3 None)
                            else
                              option_map (fun r => (utf8 h ++ utf8 cu ++ fst r, snd r))
                                         (parseStringBody s3 None)
                        | None =>
                            option_map (fun r => (utf8 cu ++ fst r, snd r))
                                       (parseStringBody s3 None)
                        end
                  | None => None
                  end
              | _ => None
              end
            else if Ascii.eqb e "b"%char then simple 8%N
            else if Ascii.eqb e "f"%char then simple 12%N
            else if Ascii.eqb e "n"%char then simple 10%N
            else if Ascii.eqb e "r"%char then simple 13%N
            else if Ascii.eqb e "t"%char then simple 9%N
            else if Ascii.eqb e "/"%char then simple 47%N
            else if Ascii.eqb e "\"%char then simple 92%N
            else if (N_of_ascii e =? 34)%N then simple 34%N
            else None
        | EmptyString => None
        end
      else
        option_map (fun r => (flushHigh high ++ String a (fst r), snd r))
                   (parseStringBody s1 None)
  end.

(** A JSON number and the text after it. *)
Definition parseNumber (s : string) : option (float * string) :=
  let '(neg, s1) :=
    match s with
    | String "-"%char r => (true, r)
    | _ => (false, s)
    end in
  let '(ip, r1) := spanDigits s1 in
  if String.eqb ip "" || (startsWith "0" ip && negb (String.eqb ip "0")) then None
  else
    let frac :=
      match r1 with
      | String "."%char r =>
          let '(fp, r2) := spanDigits r in
          if String.eqb fp "" then None else Some (fp, r2)
      | _ => Some ("", r1)
      end in
    match frac with
    | None => None
    | Some (fp, r2) =>
        let ex :=
          match r2 with
          | String c r =>
              if Ascii.eqb c "e"%char || Ascii.eqb c "E"%char then
                let '(eneg, r3) :=
                  match r with
                  | String "+"%char r' => (false, r')
                  | String "-"%char r' => (true, r')
                  | _ => (false, r)
                  end in
                let '(ds, r4) := spanDigits r3 in
                if String.eqb ds "" then None
                else Some (if eneg then (- Z.of_N (readDecimal ds 0))%Z
                           else Z.of_N (readDecimal ds 0), r4)
              else Some (0%Z, r2)
          | EmptyString => Some (0%Z, r2)
          end in
        match ex with
        | None => None
        | Some (e, rest) =>
            Some (decimalToFloat neg (Z.of_N (readDecimal (ip ++ fp) 0))
                    (e - Z.of_nat (String.length fp)), rest)
        end
    end.

Definition dropPrefix (p s : string) : string :=
  substring (String.length p) (String.length s - String.length p) s.

(** A JSON value and the text after it.  Every call is made after at least
    one more character was consumed, so [fuel] above twice the length of
    the text is never exhausted. *)
Fixpoint parseValue (fuel : nat) (s : string) {struct fuel}
  : option (JsValue * string) :=
  match fuel with
  | O => None
  | S fuel' =>
      let t := skipWs s in
      match t with
      | EmptyString => None
      | String c r =>
          if Ascii.eqb c "["%char then
            match skipWs r with
            | String "]"%char r' => Some (JsArr [], r')
            | _ => parseElements fuel' r []
            end
          else if Ascii.eqb c "{"%char then
            match skipWs r with
            | String "}"%char r' => Some (JsObj [], r')
            | _ => parseMembers fuel' r []
            end
          else if (N_of_ascii c =? 34)%N then
            option_map (fun p => (JsStr (fst p), snd p)) (parseStringBody r None)
          else if startsWith "true" t then Some (JsBool true, dropPrefix "true" t)
          else if startsWith "false" t then Some (JsBool false, dropPrefix "false" t)
          else if startsWith "null" t then Some (JsNull, dropPrefix "null" t)
          else option_map (fun p => (JsNum (fst p), snd p)) (parseNumber t)
      end
  end
with parseElements (fuel : nat) (s : string) (acc : list JsValue) {struct fuel}
  : option (JsValue * string) :=
  match fuel with
  | O => None
  | S fuel' =>
      match parseValue fuel' s with
      | Some (v, r) =>
          match skipWs r with
          | String ","%char r' => parseElements fuel' r' (acc ++ [v])
          | String "]"%char r' => Some (JsArr (acc ++ [v]), r')
          | _ => None
          end
      | None => None
      end
  end
with parseMembers (fuel : nat) (s : string) (acc : list (string * JsValue))
  {struct fuel} : option (JsValue * string) :=
  match fuel with
  | O => None
  | S fuel' =>
      match skipWs s with
      | String q r =>
          if (N_of_ascii q =? 34)%N then
            match parseStringBody r None with
            | Some (k, r1) =>
                match skipWs r1 with
                | String ":"%char r2 =>
                    match parseValue fuel' r2 with
                    | Some (v, r3) =>
                        match skipWs r3 with
                        | String ","%char r4 => parseMembers fuel' r4 (setOwn acc k v)
                        | String "}"%char r4 => Some (JsObj (setOwn acc k v), r4)
                        | _ => None
                        end
                    | None => None
                    end
                | _ => None
                end
            | None => None
            end
          else None
      | EmptyString => None
      end
  end.

Definition JSON_parse (text : string) : Completion JsValue :=
  match parseValue (2 * String.length text + 2) text with
  | Some (v, rest) =>
      if String.eqb (skipWs rest) "" then Normal v
      else Throw (SyntaxError "Unexpected non-whitespace character after JSON")
  | None => Throw (SyntaxError "Unexpected token in JSON")
  end.

Definition NativeSource (name : string) : string :=
  "function " ++ name ++ "() { [native code] }".

Definition runtime : Runtime :=
  Build_Runtime JSON_parse JSON_stringify StringToNumber NumberToString
                NumberToLocaleString NativeSource.

End Node.

(** * The server *)

(** The result of [+]: a number or a string. *)
Inductive Scalar : Type :=
| SNum (n : float)
| SStr (s : string).

Definition ofScalar (s : Scalar) : JsValue :=
  match s with
  | SNum n => JsNum n
  | SStr t => JsStr t
  end.

(** [{ raw, records }] *)
Record Normalized : Type := { raw : string; records : list JsValue }.

(** [{ customers, brands, seasons }] *)
Record Contexts : Type := {
  customers : list JsValue;
  brands : list JsValue;
  seasons : list JsValue
}.

(** The argument of [openaiClient.chat.completions.create]. *)
Record ChatRequest : Type := {
  model : string;
  temperature : float;
  max_tokens : float;
  messages : list (string * string)   (* role, content *)
}.

(** A row of [analysis_logs]. *)
Record AuditRow : Type := {
  analysis_type : JsValue;
  row_filters : JsValue;
  result_preview : string;
  succeeded : bool;
  error_message : option string       (* [None] is [null] *)
}.

(** The module-level configuration: the clients are [null] when their
    environment variables are missing.  A client is what its call does:
    complete with a value or raise. *)
Record Env : Type := {
  openaiModel : string;
  openaiClient : option (ChatRequest -> Completion JsValue);
  (** [supabaseServiceClient.from('analysis_logs').insert(row)]: the row is
      stored ([Normal]), or the insert fails ([Throw]). *)
  supabaseServiceClient : option (AuditRow -> Completion unit)
}.

(** [res.status(s).json(b)] *)
Record Response : Type := { status : nat; body : JsValue }.

(** What one run of the [POST /api/analyze] handler did: the response it
    sent (if any), the rows it inserted into [analysis_logs], and the error
    its promise was rejected with (if any). *)
Record Outcome : Type := {
  response : option Response;
  logged : list AuditRow;
  rejection : option JsError
}.

(** The argument of [logAnalysis]; its [succeeded] is [succeededFlag] here,
    and the [filters] column of a row is [row_filters]. *)
Record LogArgs : Type := {
  analysisType : JsValue;
  filters : JsValue;
  resultPreview : option string;      (* [None] is [undefined] *)
  succeededFlag : bool;
  errorMessage : option string     (* [None] is [undefined] *)
}.

(** A string, or [undefined]. *)
Definition ofOptionalString (o : option string) : JsValue :=
  match o with
  | Some t => JsStr t
  | None => JsUndefined
  end.

(** [Number.isNaN(v)] *)
Definition NumberIsNaN (v : JsValue) : bool :=
  match v with
  | JsNum n => is_nan n
  | _ => false
  end.

(** SameValueZero, the equality of [Set].  Objects are equal to themselves
    only; the objects of a record list are pairwise distinct (each comes
    from its own literal or its own row), so two that are met are never
    the same object. *)
Definition SameValueZero (a b : JsValue) : bool :=
  match a, b with
  | JsUndefined, JsUndefined => true
  | JsNull, JsNull => true
  | JsBool x, JsBool y => Bool.eqb x y
  | JsNum x, JsNum y => (x =? y)%float || (is_nan x && is_nan y)
  | JsStr x, JsStr y => String.eqb x y
  | _, _ => false
  end.

(** [Array.from(new Set(list))]: the first occurrence of each value. *)
Fixpoint setFrom (seen : list JsValue) (l : list JsValue) : list JsValue :=
  match l with
  | [] => []
  | x :: l' =>
      if existsb (SameValueZero x) seen then setFrom seen l'
      else x :: setFrom (x :: seen) l'
  end.

(** [sampleRecords] *)
Definition sampleRecord (customer brand season stage : string) (amount : float)
    (notes : option string) : JsValue :=
  JsObj ([ ("customer", JsStr customer); ("brand", JsStr brand);
           ("season", JsStr season); ("stage", JsStr stage);
           ("amount", JsNum amount) ] ++
         match notes with
         | Some t => [("notes", JsStr t)]
         | None => []
         end).

Definition sampleRecords : list JsValue :=
  [ sampleRecord "Northwind Outfitters" "ActiveLife" "Spring" "Proposal" 185000
      (Some "Bundle with accessories");
    sampleRecord "Summit Stores" "ActiveLife" "Summer" "Negotiation" 220000
      (Some "Close date likely this month");
    sampleRecord "Harbor Co-op" "UrbanFlex" "Holiday" "Committed" 310000 None;
    sampleRecord "Northwind Outfitters" "UrbanFlex" "Holiday" "Discovery" 95000 None;
    sampleRecord "Metro Sports" "TrailWorks" "Spring" "Proposal" 140000 None ].

Section Server.

Variable rt : Runtime.

(** ** Conversions *)

(** ToString.  An array is its elements joined by commas ([undefined] and
    [null] print as nothing); a plain object is ["[object Object]"], unless
    it has an own [toString] property: request data holds no function, so
    that property is not callable and the conversion raises. *)
Fixpoint ToStringJs (v : JsValue) : Completion string :=
  match v with
  | JsUndefined => Normal "undefined"
  | JsNull => Normal "null"
  | JsBool b => Normal (if b then "true" else "false")
  | JsNum n => Normal (NumberToString rt n)
  | JsStr s => Normal s
  | JsArr items =>
      parts <- mapM (fun x => if isNullish x then Normal "" else ToStringJs x) items ;;
      Normal (join "," parts)
  | JsObj props =>
      if hasOwn "toString" props
      then Throw (TypeError "Cannot convert object to primitive value")
      else Normal "[object Object]"
  | JsBuiltin ObjectPrototype => Normal "[object Object]"
  | JsBuiltin (NativeFunction name) => Normal (NativeSource rt name)
  end.

(** ToPrimitive: for an object, [valueOf] never yields a primitive, so the
    result is that of [toString] under every hint. *)
Definition ToPrimitive (v : JsValue) : Completion JsValue :=
  match v with
  | JsArr _ | JsObj _ | JsBuiltin _ => s <- ToStringJs v ;; Normal (JsStr s)
  | _ => Normal v
  end.

(** ToNumber, which is [Number(v)]. *)
Definition ToNumber (v : JsValue) : Completion float :=
  p <- ToPrimitive v ;;
  Normal (match p with
          | JsNull => zero
          | JsBool b => if b then one else zero
          | JsNum n => n
          | JsStr s => StringToNumber rt s
          | _ => nan
          end).

(** [l + r] *)
Definition JsAdd (l r : JsValue) : Completion Scalar :=
  lp <- ToPrimitive l ;;
  rp <- ToPrimitive r ;;
  match lp, rp with
  | JsStr _, _ | _, JsStr _ =>
      ls <- ToStringJs lp ;; rs <- ToStringJs rp ;; Normal (SStr (ls ++ rs))
  | _, _ =>
      ln <- ToNumber lp ;; rn <- ToNumber rp ;; Normal (SNum (ln + rn)%float)
  end.

Definition scalarToNumber (s : Scalar) : float :=
  match s with
  | SNum n => n
  | SStr t => StringToNumber rt t
  end.

(** [value.toLocaleString()] on a number or a string. *)
Definition toLocaleString (s : Scalar) : string :=
  match s with
  | SNum n => NumberToLocaleString rt n
  | SStr t => t
  end.

(** ** normalizeRecords *)

(** The callback of [parsed.map]. *)
Definition toRecord (item : JsValue) : Completion JsValue :=
  customer <- Get item "customer" ;;
  account <- Get item "account" ;;
  brand <- Get item "brand" ;;
  category <- Get item "category" ;;
  season <- Get item "season" ;;
  quarter <- Get item "quarter" ;;
  period <- Get item "period" ;;
  stage <- Get item "stage" ;;
  pipelineStage <- Get item "pipelineStage" ;;
  amount <- Get item "amount" ;;
  value <- Get item "value" ;;
  revenue <- Get item "revenue" ;;
  total <- Get item "total" ;;
  amountNumber <-
    ToNumber (JsOr (JsOr (JsOr (JsOr amount value) revenue) total) (JsNum zero)) ;;
  notes <- Get item "notes" ;;
  comment <- Get item "comment" ;;
  Normal (JsObj
    [ ("customer", JsOr (JsOr customer account) (JsStr "Unknown Customer"));
      ("brand", JsOr (JsOr brand category) (JsStr "Unknown Brand"));
      ("season", JsOr (JsOr (JsOr season quarter) period) (JsStr "Unspecified"));
      ("stage", JsOr (JsOr stage pipelineStage) (JsStr "unspecified"));
      ("amount", JsNum amountNumber);
      ("notes", JsOr (JsOr notes comment) (JsStr "")) ]).

(** The predicate of [.filter]: [!Number.isNaN(r.amount)]. *)
Definition amountIsNumber (r : JsValue) : Completion bool :=
  a <- Get r "amount" ;; Normal (negb (NumberIsNaN a)).

Definition normalizeRecords (data : JsValue) : Completion Normalized :=
  if negb (ToBoolean data) then Normal {| raw := ""; records := [] |}
  else
    let '(raw, parsed) :=
      match data with
      | JsStr s =>
          (s, match JSON_parse rt s with
              | Normal v => v
              | Throw _ => JsArr []
              end)
      | JsArr _ => (JSON_stringify rt data, data)
      | JsObj _ | JsBuiltin ObjectPrototype => (JSON_stringify rt data, JsArr [data])
      | _ => ("", JsArr [])
      end in
    match parsed with
    | JsArr items =>
        mapped <- mapM toRecord items ;;
        kept <- filterM amountIsNumber mapped ;;
        Normal {| raw := raw; records := kept |}
    | _ => Normal {| raw := raw; records := [] |}
    end.

(** ** summarizeLocally *)

(** [records.reduce((sum, r) => sum + (r.amount || 0), 0)] *)
Definition totalAmount (records : list JsValue) : Completion Scalar :=
  foldM (fun sum r =>
           a <- Get r "amount" ;;
           JsAdd (ofScalar sum) (JsOr a (JsNum zero)))
        records (SNum zero).

(** The accumulator of [groupBy]: the own properties of an object created
    by [{}], whose values are results of [+]. *)
Definition Group : Type := list (string * Scalar).

(** [acc[k]]: an own property, or what [Object.prototype] has under [k]. *)
Definition groupGet (acc : Group) (k : string) : JsValue :=
  match lookup k acc with
  | Some v => ofScalar v
  | None => protoGet k
  end.

(** [acc[k] = v]: [__proto__] is a setter of [Object.prototype] that
    ignores a value that is not an object; any other key becomes, or
    stays, an own property. *)
Definition groupSet (acc : Group) (k : string) (v : Scalar) : Group :=
  if String.eqb k "__proto__" then acc else setOwn acc k v.

Definition groupBy (records : list JsValue) (key : string) : Completion Group :=
  foldM (fun acc r =>
           kv <- Get r key ;;
           k <- ToStringJs (JsOr kv (JsStr "Unspecified")) ;;
           a <- Get r "amount" ;;
           v <- JsAdd (JsOr (groupGet acc k) (JsNum zero)) (JsOr a (JsNum zero)) ;;
           Normal (groupSet acc k v))
        records [].

(** The comparator [(a, b) => b[1] - a[1]]. *)
Definition byValueDesc (a b : string * Scalar) : float :=
  (scalarToNumber (snd b) - scalarToNumber (snd a))%float.

(** [Array.prototype.sort]: [x] goes before [y] when the comparator is
    negative, and a [NaN] result counts as [0].  The sort is stable; for a
    comparator that orders the elements consistently its result is the one
    of this insertion sort. *)
Fixpoint insertSorted {A : Type} (cmp : A -> A -> float) (x : A) (l : list A)
  : list A :=
  match l with
  | [] => [x]
  | y :: l' => if (cmp x y <? 0)%float then x :: l else y :: insertSorted cmp x l'
  end.

Definition sortBy {A : Type} (cmp : A -> A -> float) (l : list A) : list A :=
  fold_left (fun sorted x => insertSorted cmp x sorted) l [].

Definition top (obj : Group) : string :=
  join "; "
    (map (fun e => fst e ++ ": $" ++ toLocaleString (snd e))
         (firstn 3 (sortBy byValueDesc (ownEntries obj)))).

(** [Object.entries(filters || {}).filter(([, value]) => value)
      .map(([key, value]) => `${key}: ${value}`).join(sep)] *)
Definition renderFilters (sep : string) (filters : JsValue) : Completion string :=
  entries <- ObjectEntries (JsOr filters (JsObj [])) ;;
  parts <- mapM (fun e => v <- ToStringJs (snd e) ;; Normal (fst e ++ ": " ++ v))
                (filter (fun e => ToBoolean (snd e)) entries) ;;
  Normal (join sep parts).

Definition summarizeLocally (records : list JsValue) (filters : JsValue)
  : Completion string :=
  match records with
  | [] => Normal "No structured sales records were provided to summarize."
  | _ =>
      total <- totalAmount records ;;
      byCustomer <- groupBy records "customer" ;;
      byBrand <- groupBy records "brand" ;;
      bySeason <- groupBy records "season" ;;
      filterSummary <- renderFilters ", " filters ;;
      Normal (join " " (filter nonEmpty
        [ "AI provider is not configured. Showing a quick local summary instead.";
          if nonEmpty filterSummary
          then "Applied filters -> " ++ filterSummary ++ "."
          else "No filters applied.";
          "Total pipeline value: $" ++ toLocaleString total ++ ".";
          match byCustomer with
          | [] => ""
          | _ => "Top customers: " ++ top byCustomer ++ "."
          end;
          match byBrand with
          | [] => ""
          | _ => "Top brands: " ++ top byBrand ++ "."
          end;
          match bySeason with
          | [] => ""
          | _ => "Top seasons/periods: " ++ top bySeason ++ "."
          end ]))
  end.

(** ** buildPrompt *)

Definition pipelineFocus : string :=
  "Predict pipeline milestones, risks, and likely close timelines with confidence levels.".

Definition focus : list (string * JsValue) :=
  [ ("trends",
     JsStr "Identify demand trends, seasonality, and drivers across customers and brands.");
    ("pipeline", JsStr pipelineFocus);
    ("communications",
     JsStr "Draft succinct client-ready communication bullets and recommendations based on the data.") ].

Definition buildPrompt (rawSalesText : string) (analysisType filters : JsValue)
  : Completion string :=
  filterSummary <- renderFilters "; " filters ;;
  key <- ToStringJs analysisType ;;
  required <- ToStringJs (JsOr (getProp focus key) (JsStr "General sales insights.")) ;;
  Normal
    ("You are a senior sales operations analyst. Use the sales data below to summarize insights."
     ++ nl ++ nl
     ++ "Context filters: "
     ++ (if nonEmpty filterSummary then filterSummary else "none provided") ++ nl
     ++ "Required focuses: " ++ required ++ nl ++ nl
     ++ "Deliver three sections:" ++ nl
     ++ "1) Trend Highlights (bullets)" ++ nl
     ++ "2) Pipeline Outlook (probable milestones, risks, next best actions)" ++ nl
     ++ "3) Draft Communications (short, actionable notes for stakeholders)" ++ nl ++ nl
     ++ "Use concise bullets and include numeric references when available. If data is sparse, state assumptions.").

(** ** runOpenAIAnalysis *)

(** [v?.k] *)
Definition optionalGet (v : JsValue) (k : string) : Completion JsValue :=
  if isNullish v then Normal JsUndefined else Get v k.

(** [completion.choices[0]?.message?.content?.trim()]: a string, or
    [undefined]. *)
Definition firstChoiceText (completion : JsValue) : Completion (option string) :=
  choices <- Get completion "choices" ;;
  first <- match choices with
           | JsUndefined | JsNull =>
               Throw (TypeError "Cannot read properties of undefined (reading '0')")
           | JsArr items => Normal (nth 0 items JsUndefined)
           | JsObj props => Normal (getProp props "0")
           | JsStr t => Normal (match t with
                                | EmptyString => JsUndefined
                                | String a _ => JsStr (String a "")
                                end)
           | _ => Normal JsUndefined
           end ;;
  message <- optionalGet first "message" ;;
  content <- optionalGet message "content" ;;
  match content with
  | JsUndefined | JsNull => Normal None
  | JsStr t => Normal (Some (trim t))
  | _ => Throw (TypeError "completion.choices[0]?.message?.content?.trim is not a function")
  end.

Definition runOpenAIAnalysis (openaiModel : string)
    (client : ChatRequest -> Completion JsValue)
    (rawSalesText : string) (analysisType filters : JsValue)
  : Completion (option string) :=
  prompt <- buildPrompt rawSalesText analysisType filters ;;
  completion <-
    client {| model := openaiModel;
              temperature := 0x1.999999999999ap-2%float;
              max_tokens := 500%float;
              messages :=
                [ ("system",
                   "You are an expert AI sales analyst who is factual, concise, and action oriented.");
                  ("user", prompt ++ nl ++ nl ++ "Sales data:" ++ nl ++ rawSalesText) ] |} ;;
  firstChoiceText completion.

(** ** logAnalysis *)

(** [resultPreview?.slice(0, 500) || ''] *)
Definition previewOf (resultPreview : option string) : string :=
  match resultPreview with
  | Some t => slice0 500 t
  | None => ""
  end.

(** [errorMessage || null] *)
Definition errorMessageOrNull (message : option string) : option string :=
  match message with
  | Some m => if nonEmpty m then Some m else None
  | None => None
  end.

(** The row that [logAnalysis] inserts. *)
Definition auditRow (args : LogArgs) : AuditRow :=
  {| analysis_type := analysisType args;
     row_filters := filters args;
     result_preview := previewOf (resultPreview args);
     succeeded := succeededFlag args;
     error_message := errorMessageOrNull (errorMessage args) |}.

(** The rows of [analysis_logs] after the call, given the rows before it:
    nothing is written without a service client, and an insert that fails
    is at most warned about. *)
Definition logAnalysis (client : option (AuditRow -> Completion unit))
    (args : LogArgs) (rows : list AuditRow) : list AuditRow :=
  match client with
  | None => rows
  | Some insert =>
      match insert (auditRow args) with
      | Normal _ => rows ++ [auditRow args]
      | Throw _ => rows
      end
  end.

(** ** formatContexts *)

(** [list => Array.from(new Set(list.filter(Boolean)))] *)
Definition unique (l : list JsValue) : list JsValue :=
  setFrom [] (filter ToBoolean l).

Definition formatContexts (records : list JsValue) : Completion Contexts :=
  cs <- mapM (fun r => Get r "customer") records ;;
  bs <- mapM (fun r => Get r "brand") records ;;
  ss <- mapM (fun r => Get r "season") records ;;
  Normal {| customers := unique cs; brands := unique bs; seasons := unique ss |}.

(** ** POST /api/analyze *)

(** A destructuring default: [x = d] takes [d] when the property is
    [undefined]. *)
Definition orDefault (v d : JsValue) : JsValue :=
  match v with
  | JsUndefined => d
  | _ => v
  end.

Definition rejected (e : JsError) : Outcome :=
  {| response := None; logged := []; rejection := Some e |}.

(** [const { salesData, analysisType = 'trends', filters = {} } = req.body || {}]:
    [req.body || {}] is truthy, so reading its properties cannot raise. *)
Definition requestSalesData (reqBody : JsValue) : JsValue :=
  field (JsOr reqBody (JsObj [])) "salesData".

Definition requestAnalysisType (reqBody : JsValue) : JsValue :=
  orDefault (field (JsOr reqBody (JsObj [])) "analysisType") (JsStr "trends").

Definition requestFilters (reqBody : JsValue) : JsValue :=
  orDefault (field (JsOr reqBody (JsObj [])) "filters") (JsObj []).

(** The handler.  Whatever [normalizeRecords] or [summarizeLocally] raises
    is not caught: it rejects the handler's promise, and no response is
    sent. *)
Definition analyze (env : Env) (reqBody : JsValue) : Outcome :=
  let salesData := requestSalesData reqBody in
  let analysisType := requestAnalysisType reqBody in
  let filters := requestFilters reqBody in
  if negb (ToBoolean salesData) then
    {| response := Some {| status := 400;
                           body := JsObj [("error", JsStr "Missing salesData payload.")] |};
       logged := [];
       rejection := None |}
  else
    match normalizeRecords salesData with
    | Throw e => rejected e
    | Normal normalized =>
        let rawSalesText :=
          if nonEmpty (raw normalized) then raw normalized
          else JSON_stringify rt salesData in
        match openaiClient env with
        | None =>
            match summarizeLocally (records normalized) filters with
            | Throw e => rejected e
            | Normal summary =>
                {| response :=
                     Some {| status := 503;
                             body := JsObj
                               [ ("error", JsStr "AI provider is not configured. Add OPENAI_API_KEY to enable insights.");
                                 ("data", JsStr summary) ] |};
                   logged :=
                     logAnalysis (supabaseServiceClient env)
                       {| analysisType := analysisType;
                          filters := filters;
                          resultPreview := Some summary;
                          succeededFlag := true;
                          errorMessage := None |} [];
                   rejection := None |}
            end
        | Some client =>
            match runOpenAIAnalysis (openaiModel env) client rawSalesText
                                    analysisType filters with
            | Normal result =>
                {| response := Some {| status := 200;
                                       body := JsObj [("result", ofOptionalString result)] |};
                   logged :=
                     logAnalysis (supabaseServiceClient env)
                       {| analysisType := analysisType;
                          filters := filters;
                          resultPreview := result;
                          succeededFlag := true;
                          errorMessage := None |} [];
                   rejection := None |}
            | Throw error =>
                {| response :=
                     Some {| status := 500;
                             body := JsObj [("error", JsStr "Failed to analyze data. Please try again later.")] |};
                   logged :=
                     logAnalysis (supabaseServiceClient env)
                       {| analysisType := analysisType;
                          filters := filters;
                          resultPreview := Some "";
                          succeededFlag := false;
                          errorMessage :=
                            Some (if nonEmpty (messageOf error)
                                  then messageOf error
                                  else "Failed to analyze data") |} [];
                   rejection := None |}
            end
        end
    end.

(** ** GET /api/contexts *)

(** The query [from(table).select(columns).limit(limit)]. *)
Record ReadQuery : Type := {
  table : string;
  columns : string;
  limit : nat
}.

(** What the query resolves to: [{ data, error }]. *)
Record QueryResult : Type := { data : JsValue; error : JsValue }.

(** [formatContexts(data || [])]: calling [records.map] on a value that is
    not an array raises a TypeError. *)
Definition formatContextsOf (records : JsValue) : Completion Contexts :=
  match records with
  | JsArr rows => formatContexts rows
  | _ => Throw (TypeError "records.map is not a function")
  end.

(** [fetchContextsFromSupabase]; [None] is [null].  The read client is what
    its query does: resolve to [{ data, error }] or raise.  Whatever is
    raised inside the [try] (by the query, by [throw error], by
    [formatContexts]) is caught and only warned about. *)
Definition fetchContextsFromSupabase
    (supabaseReadClient : option (ReadQuery -> Completion QueryResult))
  : option Contexts :=
  match supabaseReadClient with
  | None => None
  | Some query =>
      match
        (result <- query {| table := "sales_records";
                            columns := "customer, brand, season";
                            limit := 500 |} ;;
         if ToBoolean (error result)
         then Throw (HostError "the error of the query result")
         else formatContextsOf (JsOr (data result) (JsArr [])))
      with
      | Normal contexts => Some contexts
      | Throw _ => None
      end
  end.

(** [{ source, ...contexts }] *)
Definition contextsBody (source : string) (contexts : Contexts) : JsValue :=
  JsObj [ ("source", JsStr source);
          ("customers", JsArr (customers contexts));
          ("brands", JsArr (brands contexts));
          ("seasons", JsArr (seasons contexts)) ].

(** The handler of [GET /api/contexts]: the response it sends, or the
    error its promise is rejected with. *)
Definition getContexts
    (supabaseReadClient : option (ReadQuery -> Completion QueryResult))
  : Completion Response :=
  match fetchContextsFromSupabase supabaseReadClient with
  | Some supabaseContexts =>
      Normal {| status := 200; body := contextsBody "supabase" supabaseContexts |}
  | None =>
      fallback <- formatContexts sampleRecords ;;
      Normal {| status := 200; body := contextsBody "sample" fallback |}
  end.

(** ** Configuration *)

(** [process.env]: each variable is a string, or is not set. *)
Record ProcessEnv : Type := {
  PORT : option string;
  OPENAI_API_KEY : option string;
  OPENAI_MODEL : option string;
  SUPABASE_URL : option string;
  SUPABASE_SERVICE_ROLE_KEY : option string;
  SUPABASE_ANON_KEY : option string;
  SUPABASE_PUBLISHABLE_KEY : option string;
  RATE_LIMIT_MAX_REQUESTS : option string
}.

(** A variable is truthy when it is set to a non-empty string. *)
Definition isSet (v : option string) : bool :=
  match v with
  | Some t => nonEmpty t
  | None => false
  end.

(** [a || b] on variables. *)
Definition orElse (a b : option string) : option string :=
  if isSet a then a else b.

(** The module-level constants: a client is the arguments it is created
    with, or [None] for [null]. *)
Record Settings : Type := {
  port : JsValue;
  openaiApiKey : option string;             (* [new OpenAI({ apiKey })] *)
  defaultModel : string;                    (* [openaiModel] *)
  serviceClient : option (string * string); (* [createClient(url, key)] *)
  readClient : option (string * string);    (* [createClient(url, key)] *)
  windowMs : float;
  max : float
}.

Definition configure (env : ProcessEnv) : Settings :=
  let supabaseUrl := SUPABASE_URL env in
  let supabaseServiceKey := SUPABASE_SERVICE_ROLE_KEY env in
  let supabaseAnonKey := orElse (SUPABASE_ANON_KEY env) (SUPABASE_PUBLISHABLE_KEY env) in
  {| port := match PORT env with
             | Some t => if nonEmpty t then JsStr t else JsNum 3000
             | None => JsNum 3000
             end;
     openaiApiKey := if isSet (OPENAI_API_KEY env) then OPENAI_API_KEY env else None;
     defaultModel := match OPENAI_MODEL env with
                     | Some t => if nonEmpty t then t else "gpt-4o-mini"
                     | None => "gpt-4o-mini"
                     end;
     serviceClient :=
       match supabaseUrl, supabaseServiceKey with
       | Some url, Some key =>
           if nonEmpty url && nonEmpty key then Some (url, key) else None
       | _, _ => None
       end;
     readClient :=
       match supabaseUrl, orElse supabaseAnonKey supabaseServiceKey with
       | Some url, Some key =>
           if nonEmpty url && nonEmpty key then Some (url, key) else None
       | _, _ => None
       end;
     windowMs := (15 * 60 * 1000)%float;
     max := match RATE_LIMIT_MAX_REQUESTS env with
            | Some t => if nonEmpty t then StringToNumber rt t else 20%float
            | None => 20%float
            end |}.

End Server.

(** * Vocabulary of the statements *)

(** The argument of [Number(...)] in [normalizeRecords]: the first truthy
    value among the amount-bearing fields, else [0]. *)
Definition amountSource (item : JsValue) : JsValue :=
  JsOr (JsOr (JsOr (JsOr (field item "amount") (field item "value"))
                   (field item "revenue"))
             (field item "total"))
       (JsNum zero).

(** Some amount-bearing field of [item] is truthy. *)
Definition hasTruthyAmount (item : JsValue) : bool :=
  ToBoolean (field item "amount") || ToBoolean (field item "value") ||
  ToBoolean (field item "revenue") || ToBoolean (field item "total").

(** The record [normalizeRecords] builds from [item] once its amount was
    coerced to [n]. *)
Definition recordOf (item : JsValue) (n : float) : JsValue :=
  JsObj
    [ ("customer", JsOr (JsOr (field item "customer") (field item "account"))
                        (JsStr "Unknown Customer"));
      ("brand", JsOr (JsOr (field item "brand") (field item "category"))
                     (JsStr "Unknown Brand"));
      ("season", JsOr (JsOr (JsOr (field item "season") (field item "quarter"))
                            (field item "period"))
                      (JsStr "Unspecified"));
      ("stage", JsOr (JsOr (field item "stage") (field item "pipelineStage"))
                     (JsStr "unspecified"));
      ("amount", JsNum n);
      ("notes", JsOr (JsOr (field item "notes") (field item "comment")) (JsStr "")) ].

(** [data] is a JSON array with elements [items]: the array itself, or
    its JSON text. *)
Definition arrayInput (rt : Runtime) (data : JsValue) (items : list JsValue) : Prop :=
  data = JsArr items \/
  exists s, data = JsStr s /\ s <> "" /\ JSON_parse rt s = Normal (JsArr items).

(** A canonical record: the six fields, in order, with truthy [customer],
    [brand], [season] and [stage] and an [amount] that is a number other
    than [NaN]. *)
Definition canonical (rec : JsValue) : Prop :=
  exists customer brand season stage amount notes,
    rec = JsObj [ ("customer", customer); ("brand", brand); ("season", season);
                  ("stage", stage); ("amount", JsNum amount); ("notes", notes) ]
    /\ is_nan amount = false
    /\ ToBoolean customer = true /\ ToBoolean brand = true
    /\ ToBoolean season = true /\ ToBoolean stage = true.

(** [x] is one of [l], or equal to one of [l] as [Set] compares values. *)
Definition represented (x : JsValue) (l : list JsValue) : Prop :=
  In x l \/ existsb (SameValueZero x) l = true.

(** [output] holds the truthy values of [input], each distinct value once,
    at the position of its first occurrence: it is preceded by exactly the
    distinct truthy values that occur before it in [input]. *)
Definition firstOccurrences (input output : list JsValue) : Prop :=
  (forall x, In x output -> In x input /\ ToBoolean x = true)
  /\ (forall x, In x input -> ToBoolean x = true -> represented x output)
  /\ (forall before x after,
        output = (before ++ x :: after)%list ->
        existsb (SameValueZero x) before = false)
  /\ (forall before x after,
        input = (before ++ x :: after)%list ->
        ToBoolean x = true ->
        existsb (SameValueZero x) before = false ->
        exists rest, output = (unique before ++ x :: rest)%list).

(** The summary of the two records [X: 100] and [Y: 300]. *)
Definition exampleSummary : string :=
  "AI provider is not configured. Showing a quick local summary instead. No filters applied. Total pipeline value: $400. Top customers: Y: $300; X: $100. Top brands: Unspecified: $400. Top seasons/periods: Unspecified: $400.".

(** The record list of a result, or the error raised instead. *)
Definition recordsOf (c : Completion Normalized) : Completion (list JsValue) :=
  r <- c ;; Normal (records r).

(** [r.amount] of a record, when it is a number. *)
Definition amountOf (rec : JsValue) : float :=
  match field rec "amount" with
  | JsNum n => n
  | _ => nan
  end.

(** [rec] with its [amount] replaced. *)
Definition setAmount (rec : JsValue) (n : float) : JsValue :=
  match rec with
  | JsObj props => JsObj (setOwn props "amount" (JsNum n))
  | _ => rec
  end.

(** [n || 0] on a number other than [NaN]: [-0] becomes [0]. *)
Definition positiveZero (n : float) : float := if is_zero n then zero else n.

(** A record with the six fields whose [customer], [brand] and [season] are
    strings and whose [amount] is a number. *)
Definition namedRecord (rec : JsValue) : Prop :=
  exists customer brand season stage amount notes,
    rec = JsObj [ ("customer", JsStr customer); ("brand", JsStr brand);
                  ("season", JsStr season); ("stage", stage);
                  ("amount", JsNum amount); ("notes", notes) ].

(** [r.amount || 0] of a record whose amount is a number. *)
Definition amountOrZero (rec : JsValue) : float :=
  match JsOr (field rec "amount") (JsNum zero) with
  | JsNum n => n
  | _ => nan
  end.

(** The first sentence of every local summary. *)
Definition summaryNotice : string :=
  "AI provider is not configured. Showing a quick local summary instead.".

(** [raw || JSON.stringify(salesData, null, 2)] *)
Definition rawSalesTextOf (rt : Runtime) (salesData : JsValue) (normalized : Normalized)
  : string :=
  if nonEmpty (raw normalized) then raw normalized else JSON_stringify rt salesData.

(** The body of the 500 response. *)
Definition analysisFailed : Response :=
  {| status := 500;
     body := JsObj [("error", JsStr "Failed to analyze data. Please try again later.")] |}.

(** The contexts of [sampleRecords]. *)
Definition sampleContexts : Contexts :=
  {| customers := [ JsStr "Northwind Outfitters"; JsStr "Summit Stores";
                    JsStr "Harbor Co-op"; JsStr "Metro Sports" ];
     brands := [ JsStr "ActiveLife"; JsStr "UrbanFlex"; JsStr "TrailWorks" ];
     seasons := [ JsStr "Spring"; JsStr "Summer"; JsStr "Holiday" ] |}.

(** The first of the variables that is set to a non-empty string. *)
Fixpoint firstSet (vars : list (option string)) : option string :=
  match vars with
  | [] => None
  | v :: rest => if isSet v then v else firstSet rest
  end.

(** ** Example inputs *)

(** An element with no amount-bearing field, one whose [amount] is not
    numeric, and one whose [amount] is [0] and whose [value] is [5]. *)
Definition exampleItems : list JsValue :=
  [ JsObj [("customer", JsStr "Acme")];
    JsObj [("customer", JsStr "Bolt"); ("amount", JsStr "n/a")];
    JsObj [("account", JsStr "Cord"); ("amount", JsNum 0); ("value", JsNum 5)] ].

Definition exampleRecord (customer : string) (amount : float) : JsValue :=
  JsObj [ ("customer", JsStr customer); ("brand", JsStr "Unknown Brand");
          ("season", JsStr "Unspecified"); ("stage", JsStr "unspecified");
          ("amount", JsNum amount); ("notes", JsStr "") ].

Definition exampleNormalized : Normalized :=
  {| raw := Node.JSON_stringify (JsArr exampleItems);
     records := [ exampleRecord "Acme" 0; exampleRecord "Cord" 5 ] |}.

(** The JSON text [[{"amount":1e999}]]. *)
Definition overflowText : string :=
  "[{" ++ Node.dquote ++ "amount" ++ Node.dquote ++ ":1e999}]".


Definition envLogging : Env :=
  {| openaiModel := "gpt-4o-mini";
     openaiClient := None;
     supabaseServiceClient := Some (fun _ => Normal tt) |}.

(** The request body [{ salesData: [{customer:"X", amount:100},
    {customer:"Y", amount:300}] }] and the summary of its records. *)
Definition exampleRequest : JsValue :=
  JsObj [ ("salesData",
           JsArr [ JsObj [("customer", JsStr "X"); ("amount", JsNum 100)];
                   JsObj [("customer", JsStr "Y"); ("amount", JsNum 300)] ]) ].




(** The query of [fetchContextsFromSupabase]. *)
Definition contextsQuery : ReadQuery :=
  {| table := "sales_records"; columns := "customer, brand, season"; limit := 500 |}.

(** An AI client that raises, and one that answers with one choice. *)
Definition failingClient : ChatRequest -> Completion JsValue :=
  fun _ => Throw (HostError "429 Too Many Requests").


Definition envWith (client : ChatRequest -> Completion JsValue) : Env :=
  {| openaiModel := "gpt-4o-mini";
     openaiClient := Some client;
     supabaseServiceClient := Some (fun _ => Normal tt) |}.

(** A read client whose table is empty, and one whose query fails. *)
Definition emptyTableClient : ReadQuery -> Completion QueryResult :=
  fun _ => Normal {| data := JsArr []; error := JsNull |}.

Definition failingReadClient : ReadQuery -> Completion QueryResult :=
  fun _ => Normal {| data := JsNull; error := JsObj [("message", JsStr "permission denied")] |}.

(** An environment with the datastore URL and the two keys. *)
Definition exampleProcessEnv : ProcessEnv :=
  {| PORT := None;
     OPENAI_API_KEY := None;
     OPENAI_MODEL := Some "";
     SUPABASE_URL := Some "https://example.supabase.co";
     SUPABASE_SERVICE_ROLE_KEY := Some "service-key";
     SUPABASE_ANON_KEY := Some "anon-key";
     SUPABASE_PUBLISHABLE_KEY := None;
     RATE_LIMIT_MAX_REQUESTS := None |}.

(** * Facts *)

Section Facts.

Variable rt : Runtime.

Lemma bind_Normal_inv (A B : Type) (c : Completion A) (k : A -> Completion B) (b : B) :
  bind c k = Normal b -> exists a, c = Normal a /\ k a = Normal b.
Proof.
  destruct c as [a|e]; simpl; intros H.
  - exists a; split; [reflexivity | exact H].
  - discriminate H.
Qed.

(** [H : (x <- c ;; k) = Normal b]: name the value of [c] and go on with
    the continuation. *)
Ltac bind_inv H x Hx :=
  apply bind_Normal_inv in H as (x & Hx & H).

Lemma mapM_Normal_Forall2 (A B : Type) (f : A -> Completion B) (l : list A) (l' : list B) :
  mapM f l = Normal l' -> Forall2 (fun x y => f x = Normal y) l l'.
Proof.
  revert l'; induction l as [|x l IH]; intros l' H; simpl in H.
  - injection H as <-. constructor.
  - apply bind_Normal_inv in H as (y & Hy & H).
    apply bind_Normal_inv in H as (ys & Hys & H).
    injection H as <-. constructor; [exact Hy | apply IH; exact Hys].
Qed.

Lemma filterM_pure (A : Type) (f : A -> Completion bool) (g : A -> bool) (l : list A) :
  Forall (fun x => f x = Normal (g x)) l -> filterM f l = Normal (filter g l).
Proof.
  induction 1 as [|x l Hx _ IH]; simpl.
  - reflexivity.
  - rewrite Hx; simpl. rewrite IH; simpl. reflexivity.
Qed.

(** ** toRecord *)

Lemma toRecord_nullish (item : JsValue) :
  isNullish item = true -> exists m, toRecord rt item = Throw (TypeError m).
Proof.
  destruct item; simpl; try discriminate; intros _; eexists; reflexivity.
Qed.

Lemma toRecord_eq (item : JsValue) :
  isNullish item = false ->
  toRecord rt item =
  (n <- ToNumber rt (amountSource item) ;; Normal (recordOf item n)).
Proof.
  destruct item; simpl; try discriminate; intros _; reflexivity.
Qed.

Lemma toRecord_Normal_inv (item rec : JsValue) :
  toRecord rt item = Normal rec ->
  isNullish item = false /\
  exists n, ToNumber rt (amountSource item) = Normal n /\ rec = recordOf item n.
Proof.
  intros H. destruct (isNullish item) eqn:Hn.
  - destruct (toRecord_nullish item Hn) as [m Hm]. congruence.
  - split; [reflexivity|]. rewrite (toRecord_eq item Hn) in H.
    apply bind_Normal_inv in H as (n & Hn' & H). injection H as <-.
    exists n; split; [exact Hn' | reflexivity].
Qed.

Lemma ToBoolean_JsOr_default (a d : JsValue) :
  ToBoolean d = true -> ToBoolean (JsOr a d) = true.
Proof.
  intros Hd. unfold JsOr. destruct (ToBoolean a) eqn:Ha; [exact Ha | exact Hd].
Qed.

Lemma canonical_recordOf (item : JsValue) (n : float) :
  is_nan n = false -> canonical (recordOf item n).
Proof.
  intros Hn. unfold canonical, recordOf.
  do 6 eexists. split; [reflexivity|].
  split; [exact Hn|].
  repeat split; apply ToBoolean_JsOr_default; reflexivity.
Qed.

(** What [normalizeRecords] keeps of the array [items]: the records of the
    elements, in order, without those whose amount is [NaN]. *)
Lemma records_of_items (items : list JsValue) (raw0 : string) (r : Normalized) :
  (mapped <- mapM (toRecord rt) items ;;
   kept <- filterM amountIsNumber mapped ;;
   Normal {| raw := raw0; records := kept |}) = Normal r ->
  exists ns,
    Forall2 (fun item n => isNullish item = false /\
                           ToNumber rt (amountSource item) = Normal n) items ns /\
    records r =
      map (fun p => recordOf (fst p) (snd p))
          (filter (fun p => negb (is_nan (snd p))) (combine items ns)).
Proof.
  intros H.
  bind_inv H mapped Hmap.
  bind_inv H kept Hkept.
  injection H as <-. simpl.
  apply mapM_Normal_Forall2 in Hmap.
  revert kept Hkept.
  induction Hmap as [|item rec items mapped Hrec _ IH]; intros kept Hkept.
  - simpl in Hkept. injection Hkept as <-. exists []. split; [constructor | reflexivity].
  - apply toRecord_Normal_inv in Hrec as (Hnn & n & Hn & ->).
    simpl in Hkept.
    apply bind_Normal_inv in Hkept as (kept' & Hkept' & Hkept).
    injection Hkept as <-.
    destruct (IH kept' Hkept') as (ns & Hns & Heq).
    exists (n :: ns). split.
    + constructor; [split; assumption | exact Hns].
    + simpl. destruct (is_nan n); simpl; rewrite Heq; reflexivity.
Qed.

Lemma normalizeRecords_arrayInput (data : JsValue) (items : list JsValue) :
  arrayInput rt data items ->
  exists raw0,
    normalizeRecords rt data =
    (mapped <- mapM (toRecord rt) items ;;
     kept <- filterM amountIsNumber mapped ;;
     Normal {| raw := raw0; records := kept |}).
Proof.
  intros [-> | (s & -> & Hs & Hparse)].
  - eexists. reflexivity.
  - exists s. unfold normalizeRecords. simpl.
    destruct (String.eqb s "") eqn:E.
    + apply String.eqb_eq in E. contradiction.
    + simpl. rewrite Hparse. reflexivity.
Qed.

Lemma Forall2_In_combine (A B : Type) (P : A -> B -> Prop) (l : list A) (l' : list B) (x : A) :
  Forall2 P l l' -> In x l -> exists y, In (x, y) (combine l l') /\ P x y.
Proof.
  induction 1 as [|a b l l' Hab _ IH]; simpl; intros Hin.
  - contradiction.
  - destruct Hin as [-> | Hin].
    + exists b; split; [left; reflexivity | exact Hab].
    + destruct (IH Hin) as (y & Hy & HP). exists y; split; [right; exact Hy | exact HP].
Qed.

(** An element whose amount coerces to [n] has its record in the output
    exactly when [n] is not [NaN]. *)
Lemma record_kept_iff (data : JsValue) (items : list JsValue) (r : Normalized)
      (item : JsValue) (n : float) :
  arrayInput rt data items ->
  normalizeRecords rt data = Normal r ->
  In item items ->
  ToNumber rt (amountSource item) = Normal n ->
  (In (recordOf item n) (records r) <-> is_nan n = false).
Proof.
  intros Hin Hr Hitem Hn.
  destruct (normalizeRecords_arrayInput data items Hin) as [raw0 Heq].
  rewrite Heq in Hr. apply records_of_items in Hr as (ns & Hns & ->).
  split.
  - intros H. apply in_map_iff in H as ([item' n'] & Hrec & H).
    apply filter_In in H as [_ Hnan]. simpl in *.
    injection Hrec as _ _ _ _ Hnn _. subst n'.
    destruct (is_nan n); [discriminate Hnan | reflexivity].
  - intros Hnan.
    destruct (Forall2_In_combine _ _ _ _ _ item Hns Hitem) as (n' & Hc & _ & Hn').
    assert (n' = n) by congruence. subst n'.
    apply in_map_iff. exists (item, n). split; [reflexivity|].
    apply filter_In. split; [exact Hc | simpl; rewrite Hnan; reflexivity].
Qed.

Lemma amountSource_no_truthy (item : JsValue) :
  hasTruthyAmount item = false -> amountSource item = JsNum zero.
Proof.
  unfold hasTruthyAmount, amountSource, JsOr. intros H.
  apply orb_false_iff in H as [H Ht].
  apply orb_false_iff in H as [H Hr].
  apply orb_false_iff in H as [Ha Hv].
  rewrite Ha, Hv, Hr, Ht. reflexivity.
Qed.

Lemma amountSource_value (item : JsValue) (v : float) :
  ToBoolean (field item "amount") = false ->
  field item "value" = JsNum v ->
  ToBoolean (JsNum v) = true ->
  amountSource item = JsNum v.
Proof.
  unfold amountSource, JsOr. intros Ha Hv Ht.
  rewrite Ha, Hv. cbv iota.
  rewrite Ht. cbv iota. rewrite Ht. cbv iota. rewrite Ht. reflexivity.
Qed.

Lemma truthy_number_not_nan (v : float) : ToBoolean (JsNum v) = true -> is_nan v = false.
Proof.
  simpl. destruct (is_nan v); [|reflexivity].
  rewrite orb_true_r. discriminate.
Qed.

Lemma all_items_convert (data : JsValue) (items : list JsValue) (r : Normalized)
      (item : JsValue) :
  arrayInput rt data items ->
  normalizeRecords rt data = Normal r ->
  In item items ->
  isNullish item = false /\ exists n, ToNumber rt (amountSource item) = Normal n.
Proof.
  intros Hin Hr Hitem.
  destruct (normalizeRecords_arrayInput data items Hin) as [raw0 Heq].
  rewrite Heq in Hr. apply records_of_items in Hr as (ns & Hns & _).
  destruct (Forall2_In_combine _ _ _ _ _ item Hns Hitem) as (n & _ & Hnn & Hn).
  split; [exact Hnn | exists n; exact Hn].
Qed.

(** The records kept from a parsed value are canonical. *)
Lemma parsed_records_canonical (parsed : JsValue) (raw0 : string) (r : Normalized) :
  match parsed with
  | JsArr items =>
      mapped <- mapM (toRecord rt) items ;;
      kept <- filterM amountIsNumber mapped ;;
      Normal {| raw := raw0; records := kept |}
  | _ => Normal {| raw := raw0; records := [] |}
  end = Normal r ->
  Forall canonical (records r).
Proof.
  intros H.
  destruct parsed; try (injection H as <-; simpl; constructor).
  apply records_of_items in H as (ns & _ & ->).
  apply Forall_forall. intros rec Hrec.
  apply in_map_iff in Hrec as ([item n] & <- & Hp).
  apply filter_In in Hp as [_ Hnan]. simpl in *.
  apply canonical_recordOf. destruct (is_nan n); [discriminate | reflexivity].
Qed.

(** ** The claims about [normalizeRecords] *)


(** On the array [[null]], and on its JSON text, [normalizeRecords] raises
    the TypeError of reading [item.customer]. *)
Lemma normalizeRecords_null_element :
  normalizeRecords rt (JsArr [JsNull])
    = Throw (TypeError "Cannot read properties of null (reading 'customer')")
  /\ normalizeRecords Node.runtime (JsStr "[null]")
    = Throw (TypeError "Cannot read properties of null (reading 'customer')").
Proof. split; reflexivity. Qed.

Lemma mapM_toRecord_nullish (items : list JsValue) :
  Exists (fun item => isNullish item = true) items ->
  exists e, mapM (toRecord rt) items = Throw e.
Proof.
  induction 1 as [item items Hnull | item items _ (e & IH)]; simpl.
  - destruct (toRecord_nullish item Hnull) as [m ->]. eexists; reflexivity.
  - destruct (toRecord rt item) as [rec|e']; simpl.
    + rewrite IH. eexists; reflexivity.
    + eexists; reflexivity.
Qed.

(** C2 (failing inputs).  On every array that contains [null] or
    [undefined], [normalizeRecords] raises an exception to its caller
    instead of returning [{ raw, records }]: the [map] callback reads
    [item.customer] outside the [try]. *)
Theorem normalizeRecords_throws_on_nullish_element (items : list JsValue) :
  Exists (fun item => isNullish item = true) items ->
  exists e, normalizeRecords rt (JsArr items) = Throw e.
Proof.
  intros H. destruct (mapM_toRecord_nullish items H) as [e He].
  exists e. unfold normalizeRecords. simpl. rewrite He. reflexivity.
Qed.

(** C3 (amended).  Invariant of the record list of [normalizeRecords], for
    every input on which it returns: each record has the six canonical
    fields and an amount that is a number other than NaN (it may be
    [Infinity] or [-Infinity]). *)
Theorem normalizeRecords_canonical (data : JsValue) (r : Normalized) :
  normalizeRecords rt data = Normal r ->
  Forall canonical (records r).
Proof.
  unfold normalizeRecords. intros H.
  destruct (negb (ToBoolean data)).
  - injection H as <-. simpl. constructor.
  - destruct data as [| |b|n|s|items|props|[|name]];
      try (injection H as <-; simpl; apply Forall_nil).
    + eapply parsed_records_canonical; exact H.
    + exact (parsed_records_canonical (JsArr items) _ r H).
    + exact (parsed_records_canonical (JsArr [JsObj props]) _ r H).
    + exact (parsed_records_canonical (JsArr [JsBuiltin ObjectPrototype]) _ r H).
Qed.

(** C10.  Amount aliasing selects by truthiness: for every JSON array on
    which [normalizeRecords] returns, an element whose [amount] is falsy
    (such as [0]) and whose [value] is a number [v] other than [0] and NaN
    yields a record with amount [v], which is kept; an element with no
    truthy amount-bearing field yields a record with amount [0], which is
    kept. *)
Theorem amount_aliasing_by_truthiness (data : JsValue) (items : list JsValue)
        (r : Normalized) :
  arrayInput rt data items ->
  normalizeRecords rt data = Normal r ->
  (forall item v,
      In item items ->
      ToBoolean (field item "amount") = false ->
      field item "value" = JsNum v ->
      ToBoolean (JsNum v) = true ->
      toRecord rt item = Normal (recordOf item v)
      /\ field (recordOf item v) "amount" = JsNum v
      /\ In (recordOf item v) (records r))
  /\ (forall item,
      In item items ->
      hasTruthyAmount item = false ->
      toRecord rt item = Normal (recordOf item zero)
      /\ field (recordOf item zero) "amount" = JsNum zero
      /\ In (recordOf item zero) (records r)).
Proof.
  intros Hin Hr. split.
  - intros item v Hitem Ha Hv Ht.
    destruct (all_items_convert data items r item Hin Hr Hitem) as (Hnn & _).
    pose proof (amountSource_value item v Ha Hv Ht) as Hsrc.
    split; [|split].
    + rewrite (toRecord_eq item Hnn), Hsrc. reflexivity.
    + reflexivity.
    + apply (record_kept_iff data items r item v Hin Hr Hitem).
      * rewrite Hsrc. reflexivity.
      * apply truthy_number_not_nan; exact Ht.
  - intros item Hitem Hnone.
    destruct (all_items_convert data items r item Hin Hr Hitem) as (Hnn & _).
    pose proof (amountSource_no_truthy item Hnone) as Hsrc.
    split; [|split].
    + rewrite (toRecord_eq item Hnn), Hsrc. reflexivity.
    + reflexivity.
    + apply (record_kept_iff data items r item zero Hin Hr Hitem).
      * rewrite Hsrc. reflexivity.
      * reflexivity.
Qed.

(** ** summarizeLocally *)

(** C5.  On an empty record list [summarizeLocally] returns exactly the
    fixed sentence, whatever the filters. *)
Theorem summarizeLocally_empty (filters : JsValue) :
  summarizeLocally rt [] filters
  = Normal "No structured sales records were provided to summarize.".
Proof. reflexivity. Qed.

(** The summary of the records [X: 100] and [Y: 300] with no filters, in
    any locale that prints 100, 300 and 400 in plain digits. *)
Lemma summarizeLocally_two_records :
  NumberToLocaleString rt 100 = "100" ->
  NumberToLocaleString rt 300 = "300" ->
  NumberToLocaleString rt 400 = "400" ->
  summarizeLocally rt
    [ JsObj [("customer", JsStr "X"); ("amount", JsNum 100)];
      JsObj [("customer", JsStr "Y"); ("amount", JsNum 300)] ]
    (JsObj [])
  = Normal exampleSummary.
Proof.
  intros H100 H300 H400.
  destruct rt as [parse stringify toNumber toString toLocale native].
  simpl in H100, H300, H400.
  vm_compute. vm_compute in H100, H300, H400.
  rewrite H100, H300, H400. reflexivity.
Qed.





(** ** POST /api/analyze *)

(** C7.  A request whose [salesData] is missing or falsy gets the 400
    response with its error message; nothing is written to the audit log
    and the handler completes.  The outcome is the same for every runtime
    and every configuration of the clients: neither the normalizer, the
    summarizer nor a client contributes to it. *)
Theorem analyze_missing_salesData (env : Env) (reqBody : JsValue) :
  ToBoolean (requestSalesData reqBody) = false ->
  analyze rt env reqBody
  = {| response :=
         Some {| status := 400;
                 body := JsObj [("error", JsStr "Missing salesData payload.")] |};
       logged := [];
       rejection := None |}.
Proof.
  intros H. unfold analyze. rewrite H. reflexivity.
Qed.


(** ** buildPrompt *)

(** C8 (failing input).  For the analysis type ["__proto__"], which is not
    one of [trends], [pipeline], [communications], the prompt does not
    contain the generic sentence: [focus[analysisType]] finds
    [Object.prototype] through the prototype chain, which is truthy, and
    the prompt reads "Required focuses: [object Object]". *)
Theorem buildPrompt_inherited_key (rawSalesText : string) :
  exists prompt,
    buildPrompt rt rawSalesText (JsStr "__proto__") (JsObj []) = Normal prompt
    /\ lookup "__proto__" focus = None
    /\ includes "Required focuses: [object Object]" prompt = true
    /\ includes "General sales insights." prompt = false.
Proof.
  eexists. split; [reflexivity|].
  split; [reflexivity|].
  split; vm_compute; reflexivity.
Qed.

(** ** formatContexts *)

Lemma mapM_pure (A B : Type) (f : A -> Completion B) (g : A -> B) (l : list A) :
  Forall (fun x => f x = Normal (g x)) l -> mapM f l = Normal (map g l).
Proof.
  induction 1 as [|x l Hx _ IH]; simpl.
  - reflexivity.
  - rewrite Hx; simpl. rewrite IH; reflexivity.
Qed.

Lemma Get_field (v : JsValue) (k : string) :
  isNullish v = false -> Get v k = Normal (field v k).
Proof. destruct v; simpl; try discriminate; reflexivity. Qed.

Lemma setFrom_In (seen l : list JsValue) (x : JsValue) :
  In x (setFrom seen l) -> In x l.
Proof.
  revert seen; induction l as [|y l IH]; intros seen; simpl.
  - tauto.
  - destruct (existsb (SameValueZero y) seen).
    + intros H. right. exact (IH _ H).
    + intros [-> | H]; [left; reflexivity | right; exact (IH _ H)].
Qed.

Lemma existsb_false_incl (A : Type) (p : A -> bool) (l l' : list A) :
  (forall x, In x l' -> In x l) -> existsb p l = false -> existsb p l' = false.
Proof.
  intros Hincl H.
  destruct (existsb p l') eqn:E; [|reflexivity].
  apply existsb_exists in E as (x & Hx & Hp).
  assert (existsb p l = true) by (apply existsb_exists; exists x; auto).
  congruence.
Qed.

(** Every value of [l] is represented in [setFrom seen l], unless it was
    seen before. *)
Lemma setFrom_represented (seen l : list JsValue) (x : JsValue) :
  In x l ->
  represented x (setFrom seen l) \/ existsb (SameValueZero x) seen = true.
Proof.
  revert seen; induction l as [|y l IH]; intros seen Hin; simpl in *.
  - contradiction.
  - destruct (existsb (SameValueZero y) seen) eqn:Hy.
    + destruct Hin as [-> | Hin]; [right; exact Hy | exact (IH seen Hin)].
    + destruct Hin as [-> | Hin].
      * left; left; left; reflexivity.
      * destruct (IH (y :: seen) Hin) as [[H | H] | H].
        -- left; left; right; exact H.
        -- left; right; simpl. rewrite H. apply orb_true_r.
        -- simpl in H. apply orb_true_iff in H as [H | H].
           ++ left; right; simpl. rewrite H. reflexivity.
           ++ right; exact H.
Qed.

(** No value of [setFrom seen l] equals an earlier one, or a seen one. *)
Lemma setFrom_distinct (seen l before after : list JsValue) (x : JsValue) :
  setFrom seen l = (before ++ x :: after)%list ->
  existsb (SameValueZero x) before = false /\ existsb (SameValueZero x) seen = false.
Proof.
  revert seen before; induction l as [|y l IH]; intros seen before H; simpl in H.
  - destruct before; discriminate H.
  - destruct (existsb (SameValueZero y) seen) eqn:Hy.
    + exact (IH seen before H).
    + destruct before as [|b before]; simpl in H.
      * injection H as -> _. split; [reflexivity | exact Hy].
      * injection H as -> H.
        destruct (IH (b :: seen) before H) as [Hb Hs].
        simpl in Hs. apply orb_false_iff in Hs as [Hxb Hs].
        split; [simpl; rewrite Hxb, Hb; reflexivity | exact Hs].
Qed.

(** [setFrom] depends on [seen] only through the values it holds. *)
Lemma setFrom_seen_ext (seen seen' l : list JsValue) :
  (forall x, existsb (SameValueZero x) seen = existsb (SameValueZero x) seen') ->
  setFrom seen l = setFrom seen' l.
Proof.
  revert seen seen'; induction l as [|y l IH]; intros seen seen' Hext; simpl.
  - reflexivity.
  - rewrite <- (Hext y). destruct (existsb (SameValueZero y) seen).
    + exact (IH _ _ Hext).
    + f_equal. apply IH. intros x. simpl. rewrite (Hext x). reflexivity.
Qed.

Lemma setFrom_app (seen l1 l2 : list JsValue) :
  setFrom seen (l1 ++ l2)
  = (setFrom seen l1 ++ setFrom (rev (setFrom seen l1) ++ seen) l2)%list.
Proof.
  revert seen; induction l1 as [|y l1 IH]; intros seen; simpl.
  - reflexivity.
  - destruct (existsb (SameValueZero y) seen) eqn:Hy.
    + exact (IH seen).
    + simpl. f_equal. rewrite IH. f_equal.
      apply setFrom_seen_ext. intros x.
      rewrite <- app_assoc. reflexivity.
Qed.

Lemma unique_firstOccurrences (input : list JsValue) :
  firstOccurrences input (unique input).
Proof.
  unfold firstOccurrences, unique. split; [|split; [|split]].
  - intros x H. apply setFrom_In in H. apply filter_In in H. exact H.
  - intros x Hin Ht.
    destruct (setFrom_represented [] (filter ToBoolean input) x) as [H | H].
    + apply filter_In. split; assumption.
    + exact H.
    + discriminate H.
  - intros before x after H. exact (proj1 (setFrom_distinct _ _ _ _ _ H)).
  - intros before x after -> Ht Hnew.
    rewrite filter_app. simpl. rewrite Ht.
    rewrite setFrom_app. simpl.
    replace (existsb (SameValueZero x) (rev (setFrom [] (filter ToBoolean before)) ++ []))
      with false.
    + eexists. reflexivity.
    + symmetry. apply (existsb_false_incl _ _ before); [|exact Hnew].
      intros y Hy. rewrite app_nil_r in Hy. apply in_rev in Hy.
      apply setFrom_In in Hy. apply filter_In in Hy. exact (proj1 Hy).
Qed.

(** C9.  For every list of records (none of them [null] or [undefined]),
    [formatContexts] returns the customers, the brands and the seasons,
    each list deduplicated on its own: only truthy (non-empty) values,
    every such value of the input represented, no value twice, and each at
    the position of its first occurrence in the input order. *)
Theorem formatContexts_deduplicates (records : list JsValue) :
  Forall (fun r => isNullish r = false) records ->
  exists ctx,
    formatContexts records = Normal ctx
    /\ firstOccurrences (map (fun r => field r "customer") records) (customers ctx)
    /\ firstOccurrences (map (fun r => field r "brand") records) (brands ctx)
    /\ firstOccurrences (map (fun r => field r "season") records) (seasons ctx).
Proof.
  intros Hrecs.
  assert (Hget : forall k,
             mapM (fun r => Get r k) records = Normal (map (fun r => field r k) records)).
  { intros k. apply mapM_pure.
    eapply Forall_impl; [|exact Hrecs].
    intros r Hr. apply Get_field; exact Hr. }
  unfold formatContexts. rewrite !Hget. simpl.
  eexists. split; [reflexivity|]. simpl.
  split; [|split]; apply unique_firstOccurrences.
Qed.

(** ** Further facts *)

(** A falsy input (nullish, [''], [0], [false]) gives the empty result. *)
Lemma normalizeRecords_falsy_input (data : JsValue) :
  ToBoolean data = false ->
  normalizeRecords rt data = Normal {| raw := ""; records := [] |}.
Proof.
  intros H. unfold normalizeRecords. rewrite H. reflexivity.
Qed.

(** Text that [JSON.parse] rejects degrades to no records; the text is
    kept as [raw]. *)
Lemma normalizeRecords_unparsable_text (s : string) (e : JsError) :
  nonEmpty s = true ->
  JSON_parse rt s = Throw e ->
  normalizeRecords rt (JsStr s) = Normal {| raw := s; records := [] |}.
Proof.
  intros Hs He. unfold normalizeRecords.
  change (ToBoolean (JsStr s)) with (nonEmpty s). rewrite Hs. simpl.
  rewrite He. reflexivity.
Qed.

(** [normalizeRecords] returns on every array whose elements are neither
    [null] nor [undefined] and have an amount that [Number] can convert. *)
Lemma normalizeRecords_returns (items : list JsValue) :
  Forall (fun item => isNullish item = false /\
                      exists n, ToNumber rt (amountSource item) = Normal n) items ->
  exists r, normalizeRecords rt (JsArr items) = Normal r.
Proof.
  intros H.
  assert (Hmap : exists mapped,
             mapM (toRecord rt) items = Normal mapped /\
             Forall (fun rec => exists item n, rec = recordOf item n) mapped).
  { induction H as [|item items (Hnn & n & Hn) _ (mapped & Hm & Hall)].
    - exists []. split; [reflexivity | constructor].
    - exists (recordOf item n :: mapped). split.
      + simpl. rewrite (toRecord_eq item Hnn), Hn. simpl. rewrite Hm. reflexivity.
      + constructor; [exists item, n; reflexivity | exact Hall]. }
  destruct Hmap as (mapped & Hm & Hall).
  unfold normalizeRecords. simpl. rewrite Hm. simpl.
  rewrite (filterM_pure _ amountIsNumber
             (fun rec => negb (NumberIsNaN (field rec "amount"))) mapped).
  - eexists. reflexivity.
  - eapply Forall_impl; [|exact Hall].
    intros rec (item & n & ->). reflexivity.
Qed.

(** The aliases are tried in a fixed order: [{account: "A", value: 5}]
    normalizes to customer ["A"] and amount [5]. *)
Lemma toRecord_alias_example :
  toRecord rt (JsObj [("account", JsStr "A"); ("value", JsNum 5)])
  = Normal (exampleRecord "A" 5).
Proof. reflexivity. Qed.

(** The handler does not answer a request whose [salesData] is [[null]]:
    the TypeError of [normalizeRecords] rejects its promise. *)
Lemma analyze_rejects_null_element (env : Env) :
  analyze rt env (JsObj [("salesData", JsArr [JsNull])])
  = rejected (TypeError "Cannot read properties of null (reading 'customer')").
Proof. reflexivity. Qed.

Lemma startsWith_append (p s : string) : startsWith p (p ++ s) = true.
Proof.
  induction p as [|a p IH]; simpl.
  - reflexivity.
  - rewrite Ascii.eqb_refl. exact IH.
Qed.

Lemma includes_here (p s : string) : startsWith p s = true -> includes p s = true.
Proof. intros H. destruct s; simpl; rewrite H; reflexivity. Qed.

Lemma includes_append_l (p t s : string) :
  includes p s = true -> includes p (t ++ s) = true.
Proof.
  intros H. induction t as [|a t IH]; simpl.
  - exact H.
  - rewrite IH. apply orb_true_r.
Qed.

(** The prompt contains the sentence that [focus[analysisType] || ...]
    selected. *)
Lemma buildPrompt_includes_focus (rawSalesText : string) (analysisType filters : JsValue)
      (filterSummary key required : string) :
  renderFilters rt "; " filters = Normal filterSummary ->
  ToStringJs rt analysisType = Normal key ->
  ToStringJs rt (JsOr (getProp focus key) (JsStr "General sales insights."))
    = Normal required ->
  exists prompt,
    buildPrompt rt rawSalesText analysisType filters = Normal prompt
    /\ includes required prompt = true.
Proof.
  intros Hf Hk Hr. unfold buildPrompt.
  rewrite Hf. cbn [bind]. rewrite Hk. cbn [bind]. rewrite Hr. cbn [bind].
  eexists. split; [reflexivity|].
  do 7 apply includes_append_l.
  apply includes_here. apply startsWith_append.
Qed.

(** With analysis type ["pipeline"], the prompt contains the pipeline
    focus sentence whenever the filters can be rendered. *)
Lemma buildPrompt_pipeline (rawSalesText : string) (filters : JsValue)
      (filterSummary : string) :
  renderFilters rt "; " filters = Normal filterSummary ->
  exists prompt,
    buildPrompt rt rawSalesText (JsStr "pipeline") filters = Normal prompt
    /\ includes pipelineFocus prompt = true.
Proof.
  intros Hf.
  apply (buildPrompt_includes_focus rawSalesText (JsStr "pipeline") filters
           filterSummary "pipeline" pipelineFocus Hf); reflexivity.
Qed.


(** A repeated customer is listed once, at its first position. *)
Lemma formatContexts_repeated_customer :
  formatContexts
    [ JsObj [("customer", JsStr "A")]; JsObj [("customer", JsStr "B")];
      JsObj [("customer", JsStr "A")] ]
  = Normal {| customers := [JsStr "A"; JsStr "B"]; brands := []; seasons := [] |}.
Proof. reflexivity. Qed.

(** ** More about [normalizeRecords] *)

(** JSON text of a value that is not an array (an object, a number, ...)
    gives no records: unlike an object value, a parsed object is not
    wrapped into a list. *)
Lemma normalizeRecords_non_array_text (s : string) (v : JsValue) :
  nonEmpty s = true ->
  JSON_parse rt s = Normal v ->
  (forall items, v <> JsArr items) ->
  normalizeRecords rt (JsStr s) = Normal {| raw := s; records := [] |}.
Proof.
  intros Hs Hv Hna. unfold normalizeRecords.
  change (ToBoolean (JsStr s)) with (nonEmpty s). rewrite Hs. simpl.
  rewrite Hv. destruct v; try reflexivity.
  exfalso. exact (Hna items eq_refl).
Qed.

Lemma recordsOf_items (items : list JsValue) (raw0 : string) :
  recordsOf (mapped <- mapM (toRecord rt) items ;;
             kept <- filterM amountIsNumber mapped ;;
             Normal {| raw := raw0; records := kept |})
  = (mapped <- mapM (toRecord rt) items ;; filterM amountIsNumber mapped).
Proof.
  unfold recordsOf.
  destruct (mapM (toRecord rt) items) as [mapped|e]; simpl; [|reflexivity].
  destruct (filterM amountIsNumber mapped) as [kept|e]; reflexivity.
Qed.

(** A single object is normalized as the one-element array that holds it:
    the same records, or the same error. *)
Lemma normalizeRecords_object_as_array (props : list (string * JsValue)) :
  recordsOf (normalizeRecords rt (JsObj props))
  = recordsOf (normalizeRecords rt (JsArr [JsObj props])).
Proof.
  unfold normalizeRecords. cbn [ToBoolean negb].
  rewrite !recordsOf_items. reflexivity.
Qed.

(** The JSON text of an array is normalized as the array: the same
    records, or the same error; [raw] is the text itself. *)
Lemma normalizeRecords_text_as_array (s : string) (items : list JsValue) :
  nonEmpty s = true ->
  JSON_parse rt s = Normal (JsArr items) ->
  recordsOf (normalizeRecords rt (JsStr s))
  = recordsOf (normalizeRecords rt (JsArr items))
  /\ (forall r, normalizeRecords rt (JsStr s) = Normal r -> raw r = s).
Proof.
  intros Hs Hp. unfold normalizeRecords.
  change (ToBoolean (JsStr s)) with (nonEmpty s). rewrite Hs.
  cbn [ToBoolean negb]. rewrite Hp. split.
  - rewrite !recordsOf_items. reflexivity.
  - intros r H. bind_inv H mapped Hmap. bind_inv H kept Hkept.
    injection H as <-. reflexivity.
Qed.


Lemma JsOr_left (a b : JsValue) : ToBoolean a = true -> JsOr a b = a.
Proof. intros H. unfold JsOr. rewrite H. reflexivity. Qed.

Lemma JsOr_right (a b : JsValue) : ToBoolean a = false -> JsOr a b = b.
Proof. intros H. unfold JsOr. rewrite H. reflexivity. Qed.

Lemma JsOr_truthy (c u d : JsValue) :
  ToBoolean c = true -> JsOr (JsOr c u) d = c.
Proof. intros H. unfold JsOr. rewrite H. rewrite H. reflexivity. Qed.

Lemma JsOr_default_twice (y u : JsValue) (d : JsValue) :
  ToBoolean u = false ->
  JsOr (JsOr (JsOr y d) u) d = JsOr y d.
Proof.
  intros Hu. unfold JsOr.
  destruct (ToBoolean y) eqn:Hy.
  - rewrite Hy, Hy. reflexivity.
  - destruct (ToBoolean d) eqn:Hd.
    + rewrite Hd. reflexivity.
    + rewrite Hu. reflexivity.
Qed.

Lemma JsOr_default_thrice (y d : JsValue) :
  JsOr (JsOr (JsOr (JsOr y d) JsUndefined) JsUndefined) d = JsOr y d.
Proof.
  destruct (ToBoolean (JsOr y d)) eqn:H.
  - rewrite (JsOr_left _ JsUndefined H), (JsOr_left _ JsUndefined H).
    apply JsOr_left; exact H.
  - rewrite (JsOr_right _ JsUndefined H).
    change (JsOr JsUndefined JsUndefined) with JsUndefined.
    change (JsOr JsUndefined d) with d.
    unfold JsOr in *. destruct (ToBoolean y) eqn:Hy; [congruence | reflexivity].
Qed.

(** A record that [normalizeRecords] built is a fixed point of the element
    mapping, up to the sign of a zero amount. *)
Lemma toRecord_recordOf (item : JsValue) (n : float) :
  is_nan n = false ->
  toRecord rt (recordOf item n) = Normal (recordOf item (positiveZero n))
  /\ setAmount (recordOf item n) (positiveZero (amountOf (recordOf item n)))
     = recordOf item (positiveZero n)
  /\ is_nan (positiveZero n) = false.
Proof.
  intros Hnan. split; [|split].
  - rewrite toRecord_eq by reflexivity.
    assert (Hsrc : amountSource (recordOf item n) = JsNum (positiveZero n)).
    { assert (Ht : ToBoolean (JsNum n) = negb (is_zero n)).
      { cbn [ToBoolean]. rewrite Hnan, orb_false_r. reflexivity. }
      unfold amountSource, positiveZero.
      change (field (recordOf item n) "amount") with (JsNum n).
      change (field (recordOf item n) "value") with JsUndefined.
      change (field (recordOf item n) "revenue") with JsUndefined.
      change (field (recordOf item n) "total") with JsUndefined.
      destruct (is_zero n); cbn [negb] in Ht.
      - rewrite (JsOr_right (JsNum n) JsUndefined Ht). reflexivity.
      - rewrite !(JsOr_left (JsNum n) _ Ht). reflexivity. }
    rewrite Hsrc. cbn [ToNumber ToPrimitive bind].
    f_equal. unfold recordOf.
    change (field (JsObj ?p) ?k) with (getProp p k).
    cbn [getProp lookup String.eqb Ascii.eqb Bool.eqb protoGet existsb
         objectPrototypeMethods orb].
    repeat rewrite JsOr_default_twice by reflexivity.
    rewrite JsOr_default_thrice.
    reflexivity.
  - reflexivity.
  - unfold positiveZero. destruct (is_zero n); [reflexivity | exact Hnan].
Qed.

(** Every record of the output was built from an element, with an amount
    other than NaN. *)
Lemma records_built (data : JsValue) (r : Normalized) :
  normalizeRecords rt data = Normal r ->
  Forall (fun rec => exists item n, rec = recordOf item n /\ is_nan n = false)
         (records r).
Proof.
  assert (Htail : forall parsed raw0,
             match parsed with
             | JsArr items =>
                 mapped <- mapM (toRecord rt) items ;;
                 kept <- filterM amountIsNumber mapped ;;
                 Normal {| raw := raw0; records := kept |}
             | _ => Normal {| raw := raw0; records := [] |}
             end = Normal r ->
             Forall (fun rec => exists item n, rec = recordOf item n /\ is_nan n = false)
                    (records r)).
  { intros parsed raw0 H.
    destruct parsed; try (injection H as <-; simpl; apply Forall_nil).
    apply records_of_items in H as (ns & _ & ->).
    apply Forall_forall. intros rec Hrec.
    apply in_map_iff in Hrec as ([item n] & <- & Hp).
    apply filter_In in Hp as [_ Hnan]. simpl in *.
    exists item, n. split; [reflexivity|].
    destruct (is_nan n); [discriminate | reflexivity]. }
  unfold normalizeRecords. intros H.
  destruct (negb (ToBoolean data)).
  - injection H as <-. simpl. constructor.
  - destruct data as [| |b|n|s|items|props|[|name]];
      try (injection H as <-; simpl; apply Forall_nil).
    + eapply Htail; exact H.
    + exact (Htail (JsArr items) _ H).
    + exact (Htail (JsArr [JsObj props]) _ H).
    + exact (Htail (JsArr [JsBuiltin ObjectPrototype]) _ H).
Qed.

Lemma filter_all (A : Type) (g : A -> bool) (l : list A) :
  Forall (fun x => g x = true) l -> filter g l = l.
Proof.
  induction 1 as [|x l Hx _ IH]; simpl; [reflexivity|].
  rewrite Hx, IH. reflexivity.
Qed.

(** [normalizeRecords] is idempotent on its records: normalizing the
    record list again returns the same records, where an amount [-0] has
    become [0]. *)
Theorem normalizeRecords_idempotent (data : JsValue) (r : Normalized) :
  normalizeRecords rt data = Normal r ->
  recordsOf (normalizeRecords rt (JsArr (records r)))
  = Normal (map (fun rec => setAmount rec (positiveZero (amountOf rec))) (records r)).
Proof.
  intros H. apply records_built in H.
  set (again := fun rec => setAmount rec (positiveZero (amountOf rec))).
  unfold normalizeRecords. cbn [ToBoolean negb]. rewrite recordsOf_items.
  assert (Hmap : mapM (toRecord rt) (records r) = Normal (map again (records r))).
  { apply mapM_pure. eapply Forall_impl; [|exact H].
    intros rec (item & n & -> & Hnan).
    destruct (toRecord_recordOf item n Hnan) as (Ht & Hs & _).
    unfold again. rewrite Hs. exact Ht. }
  rewrite Hmap. cbn [bind].
  rewrite (filterM_pure _ amountIsNumber
             (fun rec => negb (NumberIsNaN (field rec "amount")))).
  - f_equal. apply filter_all. apply Forall_forall.
    intros rec' Hin. apply in_map_iff in Hin as (rec & <- & Hin).
    rewrite Forall_forall in H. destruct (H rec Hin) as (item & n & -> & Hnan).
    destruct (toRecord_recordOf item n Hnan) as (_ & Hs & Hz).
    unfold again. rewrite Hs. cbn. rewrite Hz. reflexivity.
  - apply Forall_forall. intros rec' Hin.
    apply in_map_iff in Hin as (rec & <- & Hin).
    rewrite Forall_forall in H. destruct (H rec Hin) as (item & n & -> & Hnan).
    destruct (toRecord_recordOf item n Hnan) as (_ & Hs & _).
    unfold again. rewrite Hs. reflexivity.
Qed.

(** ** More about [summarizeLocally] *)

Lemma startsWith_refl (p : string) : startsWith p p = true.
Proof.
  induction p as [|a p IH]; simpl; [reflexivity|].
  rewrite Ascii.eqb_refl. exact IH.
Qed.

Lemma startsWith_join_head (sep x : string) (l : list string) :
  startsWith x (join sep (x :: l)) = true.
Proof.
  destruct l; simpl; [apply startsWith_refl | apply startsWith_append].
Qed.

Lemma includes_join (sep x : string) (l : list string) :
  In x l -> includes x (join sep l) = true.
Proof.
  induction l as [|y l IH]; intros Hin; [contradiction|].
  destruct Hin as [-> | Hin].
  - apply includes_here. apply startsWith_join_head.
  - destruct l as [|z l]; [contradiction|].
    change (join sep (y :: z :: l)) with (y ++ sep ++ join sep (z :: l)).
    do 2 apply includes_append_l. exact (IH Hin).
Qed.

Lemma foldM_total (A B : Type) (f : B -> A -> Completion B) (l : list A) (acc : B) :
  Forall (fun x => forall a, exists a', f a x = Normal a') l ->
  exists res, foldM f l acc = Normal res.
Proof.
  intros H. revert acc. induction H as [|x l Hx _ IH]; intros acc; simpl.
  - exists acc; reflexivity.
  - destruct (Hx acc) as [a' ->]. simpl. apply IH.
Qed.

Lemma amountOrZero_named (rec : JsValue) :
  namedRecord rec ->
  exists n, Get rec "amount" = Normal (JsNum n)
            /\ JsOr (JsNum n) (JsNum zero) = JsNum (amountOrZero rec).
Proof.
  intros (c & b & s & st & n & notes & ->). exists n. split; [reflexivity|].
  unfold amountOrZero.
  change (field _ "amount") with (JsNum n).
  unfold JsOr. destruct (ToBoolean (JsNum n)); reflexivity.
Qed.

(** On records with numeric amounts the total is their sum, added left to
    right from [0], a falsy amount counting as [0]. *)
Lemma totalAmount_named (records : list JsValue) :
  Forall namedRecord records ->
  totalAmount rt records
  = Normal (SNum (fold_left (fun s rec => (s + amountOrZero rec)%float) records zero)).
Proof.
  unfold totalAmount. intros H.
  enough (Hfrom : forall start,
             foldM (fun sum r =>
                      a <- Get r "amount" ;;
                      JsAdd rt (ofScalar sum) (JsOr a (JsNum zero)))
                   records (SNum start)
             = Normal (SNum (fold_left (fun s rec => (s + amountOrZero rec)%float)
                                       records start)))
    by apply Hfrom.
  induction H as [|rec records Hrec _ IH]; intros start; cbn [foldM fold_left].
  - reflexivity.
  - destruct (amountOrZero_named rec Hrec) as (n & -> & Hor).
    cbn [bind ofScalar]. rewrite Hor.
    change (JsAdd rt (JsNum start) (JsNum (amountOrZero rec)))
      with (Normal (SNum (start + amountOrZero rec)%float)).
    cbn [bind]. apply IH.
Qed.

(** [(acc[k] || 0) + n] never raises. *)
Lemma JsAdd_group (acc : Group) (k : string) (n : float) :
  exists v, JsAdd rt (JsOr (groupGet acc k) (JsNum zero)) (JsNum n) = Normal v.
Proof.
  unfold groupGet.
  destruct (lookup k acc) as [[x|t]|].
  - unfold JsOr. destruct (ToBoolean (ofScalar (SNum x))); eexists; reflexivity.
  - unfold JsOr. destruct (ToBoolean (ofScalar (SStr t))); eexists; reflexivity.
  - unfold protoGet.
    destruct (String.eqb k "__proto__"); [eexists; reflexivity|].
    destruct (String.eqb k "constructor"); [eexists; reflexivity|].
    destruct (existsb (String.eqb k) objectPrototypeMethods); eexists; reflexivity.
Qed.

Lemma groupBy_named (records : list JsValue) (key : string) :
  In key ["customer"; "brand"; "season"] ->
  Forall namedRecord records ->
  exists g, groupBy rt records key = Normal g.
Proof.
  intros Hkey Hrecs. unfold groupBy. apply foldM_total.
  eapply Forall_impl; [|exact Hrecs].
  intros rec Hrec acc.
  destruct (amountOrZero_named rec Hrec) as (n & Hn & Hor).
  destruct Hrec as (c & b & s & st & n' & notes & ->).
  assert (Hk : exists name, Get (JsObj
                 [ ("customer", JsStr c); ("brand", JsStr b); ("season", JsStr s);
                   ("stage", st); ("amount", JsNum n'); ("notes", notes) ]) key
               = Normal (JsStr name)).
  { destruct Hkey as [<- | [<- | [<- | []]]]; eexists; reflexivity. }
  destruct Hk as [name ->]. cbn [bind].
  assert (Hs : exists k, ToStringJs rt (JsOr (JsStr name) (JsStr "Unspecified")) = Normal k).
  { unfold JsOr. destruct (ToBoolean (JsStr name)); eexists; reflexivity. }
  destruct Hs as [k ->]. cbn [bind].
  rewrite Hn. cbn [bind]. rewrite Hor.
  destruct (JsAdd_group acc k (amountOrZero
              (JsObj [ ("customer", JsStr c); ("brand", JsStr b); ("season", JsStr s);
                       ("stage", st); ("amount", JsNum n'); ("notes", notes) ])))
    as [v ->].
  eexists. reflexivity.
Qed.

(** [summarizeLocally] returns on every non-empty list of records whose
    customer, brand and season are strings and whose amount is a number,
    when the filters can be rendered; the summary starts with the notice
    and states the sum of the amounts. *)
Theorem summarizeLocally_returns (records : list JsValue) (filters : JsValue)
        (filterSummary : string) :
  records <> [] ->
  Forall namedRecord records ->
  renderFilters rt ", " filters = Normal filterSummary ->
  exists summary,
    summarizeLocally rt records filters = Normal summary
    /\ startsWith summaryNotice summary = true
    /\ includes
         ("Total pipeline value: $"
          ++ NumberToLocaleString rt
               (fold_left (fun s rec => (s + amountOrZero rec)%float) records zero)
          ++ ".") summary = true.
Proof.
  intros Hne Hrecs Hf.
  destruct (groupBy_named records "customer") as [byCustomer Hc]; [simpl; auto | exact Hrecs |].
  destruct (groupBy_named records "brand") as [byBrand Hb]; [simpl; auto | exact Hrecs |].
  destruct (groupBy_named records "season") as [bySeason Hs]; [simpl; auto | exact Hrecs |].
  pose proof (totalAmount_named records Hrecs) as Ht.
  unfold summarizeLocally.
  destruct records as [|r0 rs]; [contradiction Hne; reflexivity|].
  rewrite Ht. cbn [bind]. rewrite Hc. cbn [bind]. rewrite Hb. cbn [bind].
  rewrite Hs. cbn [bind]. rewrite Hf. cbn [bind toLocaleString].
  eexists. split; [reflexivity|]. split.
  - match goal with
    | |- startsWith _ (join _ (filter _ (?x :: ?l))) = true =>
        change (filter nonEmpty (x :: l)) with (x :: filter nonEmpty l)
    end.
    apply startsWith_join_head.
  - apply includes_join. apply filter_In. split.
    + right. right. left. reflexivity.
    + reflexivity.
Qed.

(** Filters whose values are all falsy (not set, empty, [null]) render as
    no filters. *)
Lemma renderFilters_no_truthy (sep : string) (filters : JsValue)
      (entries : list (string * JsValue)) :
  ObjectEntries (JsOr filters (JsObj [])) = Normal entries ->
  Forall (fun e => ToBoolean (snd e) = false) entries ->
  renderFilters rt sep filters = Normal "".
Proof.
  intros He Hall. unfold renderFilters. rewrite He. cbn [bind].
  assert (Hnil : filter (fun e : string * JsValue => ToBoolean (snd e)) entries = []).
  { clear He. induction Hall as [|e l He _ IH]; simpl; [reflexivity|].
    rewrite He. exact IH. }
  rewrite Hnil. reflexivity.
Qed.

(** ** Grouping and ranking *)

Lemma lookup_setOwn_same (A : Type) (props : list (string * A)) (k : string) (v : A) :
  lookup k (setOwn props k v) = Some v.
Proof.
  induction props as [|[k' v'] props IH]; simpl.
  - rewrite String.eqb_refl. reflexivity.
  - destruct (String.eqb k k') eqn:E; simpl; rewrite E; [reflexivity | exact IH].
Qed.

Lemma lookup_setOwn_other (A : Type) (props : list (string * A)) (k k' : string) (v : A) :
  k' <> k -> lookup k' (setOwn props k v) = lookup k' props.
Proof.
  intros Hne. induction props as [|[k0 v0] props IH]; simpl.
  - destruct (String.eqb k' k) eqn:E; [|reflexivity].
    apply String.eqb_eq in E. contradiction.
  - destruct (String.eqb k k0) eqn:E; simpl.
    + apply String.eqb_eq in E. subst k0.
      destruct (String.eqb k' k) eqn:E'; [|reflexivity].
      apply String.eqb_eq in E'. contradiction.
    + rewrite IH. reflexivity.
Qed.

Lemma In_keys_setOwn (A : Type) (props : list (string * A)) (k x : string) (v : A) :
  In x (map fst (setOwn props k v)) -> x = k \/ In x (map fst props).
Proof.
  induction props as [|[k0 v0] props IH]; simpl.
  - intros [<- | []]. left; reflexivity.
  - destruct (String.eqb k k0) eqn:E; simpl.
    + intros H. right. exact H.
    + intros [<- | H]; [right; left; reflexivity|].
      destruct (IH H) as [-> | H']; [left; reflexivity | right; right; exact H'].
Qed.

Lemma NoDup_keys_setOwn (A : Type) (props : list (string * A)) (k : string) (v : A) :
  NoDup (map fst props) -> NoDup (map fst (setOwn props k v)).
Proof.
  induction props as [|[k0 v0] props IH]; simpl; intros Hnd.
  - constructor; [intros [] | constructor].
  - destruct (String.eqb k k0) eqn:E; simpl.
    + exact Hnd.
    + inversion Hnd as [|? ? Hnot Hnd']; subst.
      constructor; [|exact (IH Hnd')].
      intros Hin. apply In_keys_setOwn in Hin as [-> | Hin].
      * rewrite String.eqb_refl in E. discriminate.
      * exact (Hnot Hin).
Qed.

(** One step of [groupBy]: the key it adds to, and the new accumulator. *)
Lemma groupBy_step (key : string) (acc acc' : Group) (r : JsValue) :
  (kv <- Get r key ;;
   k <- ToStringJs rt (JsOr kv (JsStr "Unspecified")) ;;
   a <- Get r "amount" ;;
   v <- JsAdd rt (JsOr (groupGet acc k) (JsNum zero)) (JsOr a (JsNum zero)) ;;
   Normal (groupSet acc k v)) = Normal acc' ->
  exists k v,
    ToStringJs rt (JsOr (field r key) (JsStr "Unspecified")) = Normal k
    /\ acc' = groupSet acc k v.
Proof.
  intros H.
  bind_inv H kv Hkv. bind_inv H k Hk. bind_inv H a Ha. bind_inv H v Hv.
  injection H as <-. exists k, v. split; [|reflexivity].
  destruct r; try discriminate Hkv; injection Hkv as <-; exact Hk.
Qed.

(** The groups of [groupBy]: each key once, never the key [__proto__]
    (a write to it is ignored), every other key of a record present, and
    no key that is not the key of a record. *)
Theorem groupBy_keys (records : list JsValue) (key : string) (g : Group) :
  groupBy rt records key = Normal g ->
  NoDup (map fst g)
  /\ lookup "__proto__" g = None
  /\ (forall r k,
        In r records ->
        ToStringJs rt (JsOr (field r key) (JsStr "Unspecified")) = Normal k ->
        k <> "__proto__" ->
        lookup k g <> None)
  /\ (forall k,
        lookup k g <> None ->
        exists r, In r records /\
                  ToStringJs rt (JsOr (field r key) (JsStr "Unspecified")) = Normal k).
Proof.
  unfold groupBy.
  enough (Hfrom : forall acc,
             foldM (fun acc r =>
                      kv <- Get r key ;;
                      k <- ToStringJs rt (JsOr kv (JsStr "Unspecified")) ;;
                      a <- Get r "amount" ;;
                      v <- JsAdd rt (JsOr (groupGet acc k) (JsNum zero))
                                 (JsOr a (JsNum zero)) ;;
                      Normal (groupSet acc k v)) records acc = Normal g ->
             (NoDup (map fst acc) -> NoDup (map fst g))
             /\ (lookup "__proto__" acc = None -> lookup "__proto__" g = None)
             /\ (forall k, lookup k acc <> None -> lookup k g <> None)
             /\ (forall r k,
                   In r records ->
                   ToStringJs rt (JsOr (field r key) (JsStr "Unspecified")) = Normal k ->
                   k <> "__proto__" ->
                   lookup k g <> None)
             /\ (forall k,
                   lookup k g <> None ->
                   lookup k acc <> None \/
                   exists r, In r records /\
                             ToStringJs rt (JsOr (field r key) (JsStr "Unspecified"))
                             = Normal k)).
  { intros H. destruct (Hfrom [] H) as (Hnd & Hproto & _ & Hall & Honly).
    split; [apply Hnd; constructor|].
    split; [apply Hproto; reflexivity|].
    split; [exact Hall|].
    intros k Hk. destruct (Honly k Hk) as [Hacc | Hr]; [|exact Hr].
    exfalso. apply Hacc. reflexivity. }
  induction records as [|r records IH]; intros acc H; cbn [foldM] in H.
  - injection H as <-. repeat split; auto.
  - bind_inv H acc' Hstep.
    destruct (groupBy_step key acc acc' r Hstep) as (k0 & v0 & Hk0 & ->).
    destruct (IH _ H) as (Hnd & Hproto & Hmono & Hall & Honly).
    assert (Hkeep : forall k, lookup k acc <> None -> lookup k (groupSet acc k0 v0) <> None).
    { intros k Hk. unfold groupSet.
      destruct (String.eqb k0 "__proto__"); [exact Hk|].
      destruct (String.eqb k k0) eqn:E.
      - apply String.eqb_eq in E. subst k. rewrite lookup_setOwn_same. discriminate.
      - rewrite lookup_setOwn_other; [exact Hk|].
        intros ->. rewrite String.eqb_refl in E. discriminate. }
    split; [|split; [|split; [|split]]].
    + intros Hacc. apply Hnd. unfold groupSet.
      destruct (String.eqb k0 "__proto__"); [exact Hacc|].
      apply NoDup_keys_setOwn. exact Hacc.
    + intros Hacc. apply Hproto. unfold groupSet.
      destruct (String.eqb k0 "__proto__") eqn:E; [exact Hacc|].
      rewrite lookup_setOwn_other; [exact Hacc|].
      intros <-. rewrite String.eqb_refl in E. discriminate.
    + intros k Hk. apply Hmono. apply Hkeep. exact Hk.
    + intros r' k [<- | Hin] Hk Hne.
      * assert (k = k0) by congruence. subst k0.
        apply Hmono. unfold groupSet.
        destruct (String.eqb k "__proto__") eqn:E.
        -- apply String.eqb_eq in E. contradiction.
        -- rewrite lookup_setOwn_same. discriminate.
      * exact (Hall r' k Hin Hk Hne).
    + intros k Hk. destruct (Honly k Hk) as [Hacc | (r' & Hin & Hr')].
      * unfold groupSet in Hacc.
        destruct (String.eqb k0 "__proto__"); [left; exact Hacc|].
        destruct (String.eqb k k0) eqn:E.
        -- apply String.eqb_eq in E. subst k0.
           right. exists r. split; [left; reflexivity | exact Hk0].
        -- left. rewrite lookup_setOwn_other in Hacc; [exact Hacc|].
           intros ->. rewrite String.eqb_refl in E. discriminate.
      * right. exists r'. split; [right; exact Hin | exact Hr'].
Qed.

Lemma insertSorted_permutation (A : Type) (cmp : A -> A -> float) (x : A) (l : list A) :
  Permutation (insertSorted cmp x l) (x :: l).
Proof.
  induction l as [|y l IH]; simpl.
  - apply Permutation_refl.
  - destruct (cmp x y <? 0)%float.
    + apply Permutation_refl.
    + eapply perm_trans; [apply perm_skip; exact IH | apply perm_swap].
Qed.

(** [sort] rearranges: whatever the comparator answers, the result holds
    the elements of the array, each as often as before. *)
Lemma sortBy_permutation (A : Type) (cmp : A -> A -> float) (l : list A) :
  Permutation (sortBy cmp l) l.
Proof.
  unfold sortBy.
  enough (H : forall acc,
             Permutation (fold_left (fun sorted x => insertSorted cmp x sorted) l acc)
                         (l ++ acc)).
  { specialize (H []). rewrite app_nil_r in H. exact H. }
  induction l as [|x l IH]; intros acc; simpl.
  - apply Permutation_refl.
  - eapply perm_trans; [apply IH|].
    eapply perm_trans;
      [apply Permutation_app_head; apply insertSorted_permutation|].
    apply Permutation_sym. apply Permutation_middle.
Qed.

Lemma insertByIndex_permutation (A : Type) (e : N * A) (l : list (N * A)) :
  Permutation (insertByIndex e l) (e :: l).
Proof.
  induction l as [|y l IH]; simpl.
  - apply Permutation_refl.
  - destruct (fst e <? fst y)%N.
    + apply Permutation_refl.
    + eapply perm_trans; [apply perm_skip; exact IH | apply perm_swap].
Qed.

(** [Object.entries] lists every own property once, whatever the order. *)
Lemma ownEntries_permutation (A : Type) (props : list (string * A)) :
  Permutation (ownEntries props) props.
Proof.
  unfold ownEntries.
  set (step := fun (acc : list (N * (string * A))) (p : string * A) =>
                 match arrayIndex (fst p) with
                 | Some n => insertByIndex (n, p) acc
                 | None => acc
                 end).
  set (other := fun p : string * A =>
                  match arrayIndex (fst p) with Some _ => false | None => true end).
  enough (H : forall acc,
             Permutation (map snd (fold_left step props acc) ++ filter other props)
                         (map snd acc ++ props)).
  { exact (H []). }
  induction props as [|p props IH]; intros acc; simpl.
  - apply Permutation_refl.
  - eapply perm_trans.
    + apply Permutation_app_head.
      instantiate (1 := filter other (p :: props)). apply Permutation_refl.
    + unfold step at 2, other at 1. simpl.
      destruct (arrayIndex (fst p)) as [n|] eqn:E.
      * fold step. fold other.
        eapply perm_trans; [apply IH|].
        simpl.
        eapply perm_trans;
          [apply Permutation_app_tail; apply Permutation_map;
           apply insertByIndex_permutation|].
        simpl. apply Permutation_middle.
      * fold step. fold other.
        eapply perm_trans.
        -- apply Permutation_sym. apply Permutation_middle.
        -- eapply perm_trans; [apply perm_skip; apply IH|].
           apply Permutation_middle.
Qed.

(** The ranking that [top] cuts its three entries from holds every group
    exactly once: sorting [Object.entries(obj)] loses and repeats
    nothing. *)
Theorem ranking_permutation (obj : Group) :
  Permutation (sortBy (byValueDesc rt) (ownEntries obj)) obj.
Proof.
  eapply perm_trans; [apply sortBy_permutation | apply ownEntries_permutation].
Qed.

(** ** More about [buildPrompt] and [runOpenAIAnalysis] *)

(** For each analysis type of the [focus] table ([trends], [pipeline],
    [communications]) the prompt contains that type's sentence, whenever
    the filters can be rendered. *)
Theorem buildPrompt_known_focus (rawSalesText key sentence : string) (filters : JsValue)
        (filterSummary : string) :
  In (key, JsStr sentence) focus ->
  renderFilters rt "; " filters = Normal filterSummary ->
  exists prompt,
    buildPrompt rt rawSalesText (JsStr key) filters = Normal prompt
    /\ includes sentence prompt = true.
Proof.
  intros Hin Hf.
  apply (buildPrompt_includes_focus rawSalesText (JsStr key) filters
           filterSummary key sentence Hf); [reflexivity|].
  destruct Hin as [H | [H | [H | []]]]; injection H as <- <-; reflexivity.
Qed.

Lemma optionalGet_field (v : JsValue) (k : string) :
  optionalGet v k = Normal (field v k).
Proof. destruct v; reflexivity. Qed.

(** The value of [completion.choices[0]?.message?.content?.trim()] when
    [choices] is an array. *)
Lemma firstChoiceText_array (completion : JsValue) (items : list JsValue) :
  field completion "choices" = JsArr items ->
  firstChoiceText completion =
  match field (field (nth 0 items JsUndefined) "message") "content" with
  | JsUndefined | JsNull => Normal None
  | JsStr t => Normal (Some (trim t))
  | _ => Throw (TypeError "completion.choices[0]?.message?.content?.trim is not a function")
  end.
Proof.
  intros Hc. unfold firstChoiceText.
  assert (Hget : Get completion "choices" = Normal (JsArr items)).
  { destruct completion; try discriminate Hc; simpl in *; rewrite Hc; reflexivity. }
  rewrite Hget. cbn [bind].
  rewrite optionalGet_field. cbn [bind].
  rewrite optionalGet_field. cbn [bind]. reflexivity.
Qed.


(** What [runOpenAIAnalysis] reads from a completion whose [choices] is an
    array: the [content] of the [message] of the first choice, trimmed when
    it is a string; [undefined], without an error, when the array is empty
    or the choice, its message or its content is missing or [null]; a
    TypeError when the content is of another type. *)
Theorem firstChoiceText_of_choices (completion : JsValue) (items : list JsValue) :
  field completion "choices" = JsArr items ->
  let content := field (field (nth 0 items JsUndefined) "message") "content" in
  (forall t, content = JsStr t -> firstChoiceText completion = Normal (Some (trim t)))
  /\ (isNullish content = true -> firstChoiceText completion = Normal None)
  /\ (isNullish content = false -> (forall t, content <> JsStr t) ->
      exists e, firstChoiceText completion = Throw e).
Proof.
  intros Hc content.
  pose proof (firstChoiceText_array completion items Hc) as Heq.
  fold content in Heq.
  rewrite Heq. split; [|split].
  - intros t ->. reflexivity.
  - intros Hn. destruct content; try discriminate Hn; reflexivity.
  - intros Hn Hs. destruct content; try discriminate Hn; try (eexists; reflexivity).
    exfalso. exact (Hs s eq_refl).
Qed.

(** ** More about [logAnalysis] *)




(** [logAnalysis] keeps the rows there are and appends at most one, the
    row of its arguments; without a service client it appends none, and it
    never raises. *)
Theorem logAnalysis_appends (client : option (AuditRow -> Completion unit))
        (args : LogArgs) (rows : list AuditRow) :
  (logAnalysis client args rows = rows
   \/ logAnalysis client args rows = (rows ++ [auditRow args])%list)
  /\ (client = None -> logAnalysis client args rows = rows)
  /\ (forall insert e, client = Some insert -> insert (auditRow args) = Throw e ->
        logAnalysis client args rows = rows)
  /\ (forall insert u, client = Some insert -> insert (auditRow args) = Normal u ->
        logAnalysis client args rows = (rows ++ [auditRow args])%list).
Proof.
  unfold logAnalysis. split; [|split; [|split]].
  - destruct client as [insert|]; [|left; reflexivity].
    destruct (insert (auditRow args)); [right | left]; reflexivity.
  - intros ->. reflexivity.
  - intros insert e -> ->. reflexivity.
  - intros insert u -> ->. reflexivity.
Qed.

(** ** More about the analyze handler *)

Lemma logAnalysis_length (client : option (AuditRow -> Completion unit)) (args : LogArgs) :
  List.length (logAnalysis client args []) <= 1.
Proof.
  unfold logAnalysis. destruct client as [insert|]; [|simpl; lia].
  destruct (insert (auditRow args)); simpl; lia.
Qed.

(** Every run of the handler either sends exactly one response, with
    status 400, 503, 200 or 500, or is rejected without a response and
    without a log entry; it writes at most one log entry, and none with the
    400 response.  It answers 503 only without an AI client, and 200 or
    500 only with one. *)
Theorem analyze_outcome (env : Env) (reqBody : JsValue) :
  List.length (logged (analyze rt env reqBody)) <= 1
  /\ ((exists resp,
         response (analyze rt env reqBody) = Some resp
         /\ rejection (analyze rt env reqBody) = None
         /\ In (status resp) [400; 503; 200; 500]
         /\ (status resp = 400 -> logged (analyze rt env reqBody) = [])
         /\ (status resp = 503 -> openaiClient env = None)
         /\ (status resp = 200 \/ status resp = 500 -> openaiClient env <> None))
      \/ (response (analyze rt env reqBody) = None
          /\ logged (analyze rt env reqBody) = []
          /\ exists e, rejection (analyze rt env reqBody) = Some e)).
Proof.
  unfold analyze.
  destruct (negb (ToBoolean (requestSalesData reqBody))).
  { split; [simpl; lia|]. left. eexists. split; [reflexivity|].
    cbn [status]. repeat split; simpl; auto; try discriminate.
    intros [H | H]; discriminate H. }
  destruct (normalizeRecords rt (requestSalesData reqBody)) as [normalized|e].
  2:{ split; [simpl; lia|]. right. repeat split. exists e. reflexivity. }
  destruct (openaiClient env) as [client|].
  - destruct (runOpenAIAnalysis rt (openaiModel env) client _ _ _) as [result|e].
    + split; [apply logAnalysis_length|]. left. eexists. split; [reflexivity|].
      cbn [status]. repeat split; simpl; auto; try discriminate.
    + split; [apply logAnalysis_length|]. left. eexists. split; [reflexivity|].
      cbn [status]. repeat split; simpl; auto; try discriminate.
  - destruct (summarizeLocally rt (records normalized) (requestFilters reqBody))
      as [summary|e].
    + split; [apply logAnalysis_length|]. left. eexists. split; [reflexivity|].
      cbn [status]. repeat split; simpl; auto; try discriminate.
      intros [H | H]; discriminate H.
    + split; [simpl; lia|]. right. repeat split. exists e. reflexivity.
Qed.

(** An error that [normalizeRecords] raises, or that [summarizeLocally]
    raises when no AI client is configured, is not caught by the handler:
    its promise is rejected with that error, no response is sent and
    nothing is logged. *)
Theorem analyze_rejects (env : Env) (reqBody : JsValue) (e : JsError) :
  ToBoolean (requestSalesData reqBody) = true ->
  normalizeRecords rt (requestSalesData reqBody) = Throw e
  \/ (exists normalized,
        normalizeRecords rt (requestSalesData reqBody) = Normal normalized
        /\ openaiClient env = None
        /\ summarizeLocally rt (records normalized) (requestFilters reqBody) = Throw e) ->
  analyze rt env reqBody = rejected e.
Proof.
  intros Hdata H. unfold analyze. rewrite Hdata. cbv [negb].
  destruct H as [-> | (normalized & -> & -> & ->)]; reflexivity.
Qed.

(** When the AI call fails (the prompt cannot be built, the client raises,
    or the completion cannot be read), the handler answers 500 with a fixed
    message that holds nothing of the error, and logs the attempt as
    failed, with the error's message, or a default when it has none. *)
Theorem analyze_ai_failure (env : Env) (reqBody : JsValue)
        (client : ChatRequest -> Completion JsValue) (normalized : Normalized)
        (e : JsError) :
  ToBoolean (requestSalesData reqBody) = true ->
  openaiClient env = Some client ->
  normalizeRecords rt (requestSalesData reqBody) = Normal normalized ->
  runOpenAIAnalysis rt (openaiModel env) client
    (rawSalesTextOf rt (requestSalesData reqBody) normalized)
    (requestAnalysisType reqBody) (requestFilters reqBody) = Throw e ->
  let args := {| analysisType := requestAnalysisType reqBody;
                 filters := requestFilters reqBody;
                 resultPreview := Some "";
                 succeededFlag := false;
                 errorMessage :=
                   Some (if nonEmpty (messageOf e) then messageOf e
                         else "Failed to analyze data") |} in
  response (analyze rt env reqBody) = Some analysisFailed
  /\ rejection (analyze rt env reqBody) = None
  /\ logged (analyze rt env reqBody) = logAnalysis (supabaseServiceClient env) args []
  /\ succeeded (auditRow args) = false
  /\ result_preview (auditRow args) = ""
  /\ (exists m, error_message (auditRow args) = Some m /\ m <> "").
Proof.
  intros Hdata Hai Hnorm Hrun args.
  unfold analyze. rewrite Hdata. cbv [negb]. rewrite Hnorm, Hai.
  unfold rawSalesTextOf in Hrun. rewrite Hrun.
  cbv [response rejection logged].
  repeat split.
  unfold args, auditRow, errorMessageOrNull. cbn [error_message errorMessage].
  destruct (nonEmpty (messageOf e)) eqn:E.
  - rewrite E. exists (messageOf e). split; [reflexivity|].
    intros H. rewrite H in E. discriminate E.
  - eexists. split; [reflexivity | discriminate].
Qed.


(** ** Contexts *)

Lemma mapM_throws (A B : Type) (f : A -> Completion B) (l : list A) :
  Exists (fun x => exists e, f x = Throw e) l -> exists e, mapM f l = Throw e.
Proof.
  induction 1 as [x l (e & Hx) | x l _ (e & IH)]; simpl.
  - rewrite Hx. exists e; reflexivity.
  - destruct (f x) as [y|e']; simpl.
    + rewrite IH. exists e; reflexivity.
    + exists e'; reflexivity.
Qed.

Lemma Get_nullish (r : JsValue) (k : string) :
  isNullish r = true -> exists e, Get r k = Throw e.
Proof. destruct r; try discriminate; intros _; eexists; reflexivity. Qed.

Lemma mapM_Get_nullish (records : list JsValue) (k : string) :
  Exists (fun r => isNullish r = true) records ->
  exists e, mapM (fun r => Get r k) records = Throw e.
Proof.
  intros H. apply mapM_throws.
  eapply Exists_impl; [|exact H].
  intros r Hr. exact (Get_nullish r k Hr).
Qed.

(** A row that is [null] or [undefined] makes [formatContexts] raise,
    whatever the other rows are. *)
Theorem formatContexts_throws (records : list JsValue) :
  Exists (fun r => isNullish r = true) records ->
  exists e, formatContexts records = Throw e.
Proof.
  intros H.
  destruct (mapM_Get_nullish records "customer" H) as [e He].
  exists e. unfold formatContexts. rewrite He. reflexivity.
Qed.

Lemma formatContexts_rows (rows : list JsValue) :
  Forall (fun r => isNullish r = false) rows ->
  formatContexts rows
  = Normal {| customers := unique (map (fun r => field r "customer") rows);
              brands := unique (map (fun r => field r "brand") rows);
              seasons := unique (map (fun r => field r "season") rows) |}.
Proof.
  intros Hrows.
  assert (Hget : forall k,
             mapM (fun r => Get r k) rows = Normal (map (fun r => field r k) rows)).
  { intros k. apply mapM_pure.
    eapply Forall_impl; [|exact Hrows].
    intros r Hr. apply Get_field; exact Hr. }
  unfold formatContexts. rewrite !Hget. reflexivity.
Qed.

Lemma formatContexts_sampleRecords : formatContexts sampleRecords = Normal sampleContexts.
Proof. reflexivity. Qed.

(* [GET /api/contexts] always answers 200: with the contexts of the
   datastore when fetching them gave any, else with those of the sample
   records. *)
Lemma getContexts_responds
        (supabaseReadClient : option (ReadQuery -> Completion QueryResult)) :
  getContexts supabaseReadClient
  = Normal {| status := 200;
              body := match fetchContextsFromSupabase supabaseReadClient with
                      | Some contexts => contextsBody "supabase" contexts
                      | None => contextsBody "sample" sampleContexts
                      end |}.
Proof.
  unfold getContexts.
  destruct (fetchContextsFromSupabase supabaseReadClient); [reflexivity|].
  rewrite formatContexts_sampleRecords. reflexivity.
Qed.

(** The sample contexts are served when there is no read client, when the
    query raises, when its result carries an error, when its data is
    neither an array nor falsy, and when a row is [null]. *)
Theorem getContexts_falls_back
        (supabaseReadClient : option (ReadQuery -> Completion QueryResult)) :
  supabaseReadClient = None
  \/ (exists query e,
        supabaseReadClient = Some query /\ query contextsQuery = Throw e)
  \/ (exists query result,
        supabaseReadClient = Some query /\ query contextsQuery = Normal result
        /\ (ToBoolean (error result) = true
            \/ (ToBoolean (data result) = true /\ forall rows, data result <> JsArr rows)
            \/ (exists rows, data result = JsArr rows
                             /\ Exists (fun r => isNullish r = true) rows))) ->
  getContexts supabaseReadClient
  = Normal {| status := 200; body := contextsBody "sample" sampleContexts |}.
Proof.
  intros H. rewrite getContexts_responds.
  enough (Hnone : fetchContextsFromSupabase supabaseReadClient = None)
    by (rewrite Hnone; reflexivity).
  unfold fetchContextsFromSupabase. fold contextsQuery.
  destruct H as [-> | [(query & e & -> & Hq) | (query & result & -> & Hq & Hr)]].
  - reflexivity.
  - rewrite Hq. reflexivity.
  - rewrite Hq. cbn [bind].
    destruct Hr as [He | [(Ht & Hna) | (rows & Hd & Hnull)]].
    + rewrite He. reflexivity.
    + destruct (ToBoolean (error result)); [reflexivity|].
      rewrite (JsOr_left _ _ Ht).
      destruct (data result); try reflexivity.
      exfalso. exact (Hna items eq_refl).
    + destruct (ToBoolean (error result)); [reflexivity|].
      rewrite Hd. change (JsOr (JsArr rows) (JsArr [])) with (JsArr rows).
      cbn [formatContextsOf].
      unfold formatContexts.
      destruct (mapM_Get_nullish rows "customer" Hnull) as [e ->]. reflexivity.
Qed.

(** When the query answers without an error, with rows none of which is
    [null] (or with no data), the deduplicated values of the rows are
    served with source [supabase]; an empty table gives three empty lists,
    not the sample. *)
Theorem getContexts_from_store
        (query : ReadQuery -> Completion QueryResult) (result : QueryResult)
        (rows : list JsValue) :
  query contextsQuery = Normal result ->
  ToBoolean (error result) = false ->
  JsOr (data result) (JsArr []) = JsArr rows ->
  Forall (fun r => isNullish r = false) rows ->
  getContexts (Some query)
  = Normal {| status := 200;
              body := contextsBody "supabase"
                {| customers := unique (map (fun r => field r "customer") rows);
                   brands := unique (map (fun r => field r "brand") rows);
                   seasons := unique (map (fun r => field r "season") rows) |} |}.
Proof.
  intros Hq He Hd Hrows. rewrite getContexts_responds.
  unfold fetchContextsFromSupabase. fold contextsQuery.
  rewrite Hq. cbn [bind]. rewrite He, Hd. cbn [formatContextsOf].
  rewrite (formatContexts_rows rows Hrows). reflexivity.
Qed.

(** ** Configuration *)

Lemma isSet_Some (v : option string) :
  isSet v = true -> exists t, v = Some t /\ nonEmpty t = true.
Proof.
  destruct v as [t|]; simpl; [|discriminate].
  intros H. exists t. split; [reflexivity | exact H].
Qed.

(** The clients the server creates.  The read client uses the first of the
    anon, publishable and service-role keys that is set, so a privileged
    key is used for reading only when no other key is set; whenever the
    service client exists the read client exists too; no client is created
    from an empty URL or key; the model name is never empty. *)
Theorem configure_clients (env : ProcessEnv) :
  (serviceClient (configure rt env) <> None -> readClient (configure rt env) <> None)
  /\ (forall url key,
        readClient (configure rt env) = Some (url, key) ->
        SUPABASE_URL env = Some url /\ nonEmpty url = true /\ nonEmpty key = true
        /\ firstSet [ SUPABASE_ANON_KEY env; SUPABASE_PUBLISHABLE_KEY env;
                      SUPABASE_SERVICE_ROLE_KEY env ] = Some key)
  /\ (forall url key,
        serviceClient (configure rt env) = Some (url, key) ->
        SUPABASE_URL env = Some url /\ SUPABASE_SERVICE_ROLE_KEY env = Some key
        /\ nonEmpty url = true /\ nonEmpty key = true)
  /\ (forall key, openaiApiKey (configure rt env) = Some key -> nonEmpty key = true)
  /\ nonEmpty (defaultModel (configure rt env)) = true.
Proof.
  unfold configure.
  cbn [serviceClient readClient openaiApiKey defaultModel].
  destruct env as [p oak om url sk ak pk rl]. cbn.
  assert (Hread : forall u key,
             match url, orElse (orElse ak pk) sk with
             | Some url0, Some key0 =>
                 if nonEmpty url0 && nonEmpty key0 then Some (url0, key0) else None
             | _, _ => None
             end = Some (u, key) ->
             url = Some u /\ nonEmpty u = true /\ nonEmpty key = true
             /\ firstSet [ak; pk; sk] = Some key).
  { intros u key H.
    destruct url as [u0|]; [|discriminate H].
    destruct (orElse (orElse ak pk) sk) as [k0|] eqn:Hk; [|discriminate H].
    destruct (nonEmpty u0) eqn:Hu; [|discriminate H].
    destruct (nonEmpty k0) eqn:Hk0; [|discriminate H].
    injection H as <- <-.
    repeat split; auto.
    unfold orElse in Hk. cbn [firstSet].
    destruct (isSet ak) eqn:Ha.
    - rewrite Ha in Hk. exact Hk.
    - destruct (isSet pk) eqn:Hp.
      + exact Hk.
      + rewrite Hk. cbn [isSet]. rewrite Hk0. reflexivity. }
  split; [|split; [|split; [|split]]].
  - intros Hs.
    destruct url as [u|]; [|contradiction Hs; reflexivity].
    destruct sk as [k|]; [|contradiction Hs; reflexivity].
    destruct (nonEmpty u) eqn:Hu; [|contradiction Hs; reflexivity].
    destruct (nonEmpty k) eqn:Hk; [|contradiction Hs; reflexivity].
    cbn [andb].
    assert (Hor : exists k', orElse (orElse ak pk) (Some k) = Some k' /\ nonEmpty k' = true).
    { unfold orElse at 1.
      destruct (isSet (orElse ak pk)) eqn:E.
      - destruct (isSet_Some _ E) as (t & Ht & Hne). exists t. split; assumption.
      - exists k. split; [reflexivity | exact Hk]. }
    destruct Hor as (k' & -> & ->). discriminate.
  - exact Hread.
  - intros u key H.
    destruct url as [u0|]; [|discriminate H].
    destruct sk as [k0|]; [|discriminate H].
    destruct (nonEmpty u0) eqn:Hu; [|discriminate H].
    destruct (nonEmpty k0) eqn:Hk0; [|discriminate H].
    injection H as <- <-. repeat split; auto.
  - intros key H. destruct oak as [t|]; cbn in H; [|discriminate H].
    destruct (nonEmpty t) eqn:E; [|discriminate H].
    injection H as <-. exact E.
  - destruct om as [t|]; [|reflexivity].
    destruct (nonEmpty t) eqn:E; [exact E | reflexivity].
Qed.



End Facts.

(** * The claims on concrete inputs *)



(** C3 (the claim as stated fails).  The JSON text [[{"amount":1e999}]]
    yields a record whose amount is [Infinity], which is not finite. *)
Lemma normalizeRecords_keeps_infinite_amount :
  normalizeRecords Node.runtime (JsStr overflowText)
  = Normal {| raw := overflowText; records := [exampleRecord "Unknown Customer" infinity] |}
  /\ is_infinity infinity = true.
Proof.
  split; vm_compute; reflexivity.
Qed.

(** The record with amount [Infinity] is canonical. *)
Lemma normalizeRecords_canonical_witness :
  normalizeRecords Node.runtime (JsStr overflowText)
  = Normal {| raw := overflowText; records := [exampleRecord "Unknown Customer" infinity] |}
  /\ Forall canonical [exampleRecord "Unknown Customer" infinity].
Proof.
  split.
  - vm_compute. reflexivity.
  - apply (normalizeRecords_canonical Node.runtime (JsStr overflowText)
             {| raw := overflowText;
                records := [exampleRecord "Unknown Customer" infinity] |}).
    vm_compute. reflexivity.
Defined.

(** The example elements again: [{amount: 0, value: 5}] normalizes to amount
    [5]. *)
Lemma amount_aliasing_by_truthiness_witness :
  normalizeRecords Node.runtime (JsArr exampleItems) = Normal exampleNormalized
  /\ ((forall item v,
         In item exampleItems ->
         ToBoolean (field item "amount") = false ->
         field item "value" = JsNum v ->
         ToBoolean (JsNum v) = true ->
         toRecord Node.runtime item = Normal (recordOf item v)
         /\ field (recordOf item v) "amount" = JsNum v
         /\ In (recordOf item v) (records exampleNormalized))
      /\ (forall item,
         In item exampleItems ->
         hasTruthyAmount item = false ->
         toRecord Node.runtime item = Normal (recordOf item zero)
         /\ field (recordOf item zero) "amount" = JsNum zero
         /\ In (recordOf item zero) (records exampleNormalized))).
Proof.
  split.
  - vm_compute. reflexivity.
  - apply (amount_aliasing_by_truthiness Node.runtime (JsArr exampleItems) exampleItems
             exampleNormalized).
    + left. reflexivity.
    + vm_compute. reflexivity.
Defined.

(** C4.  For the records [{customer:"X", amount:100}, {customer:"Y",
    amount:300}] and empty filters, [summarizeLocally] returns a summary
    that states the total pipeline value [$400] and lists the top
    customers as [Y: $300; X: $100]. *)
Theorem summarizeLocally_example :
  summarizeLocally Node.runtime
    [ JsObj [("customer", JsStr "X"); ("amount", JsNum 100)];
      JsObj [("customer", JsStr "Y"); ("amount", JsNum 300)] ]
    (JsObj [])
  = Normal exampleSummary
  /\ includes "Total pipeline value: $400." exampleSummary = true
  /\ includes "Top customers: Y: $300; X: $100." exampleSummary = true.
Proof.
  split; [|split].
  - apply (summarizeLocally_two_records Node.runtime); vm_compute; reflexivity.
  - vm_compute. reflexivity.
  - vm_compute. reflexivity.
Qed.

(** The array [[{customer: "Acme"}, null]] makes [normalizeRecords] raise. *)
Lemma normalizeRecords_throws_on_nullish_element_witness :
  exists e,
    normalizeRecords Node.runtime (JsArr [JsObj [("customer", JsStr "Acme")]; JsNull])
    = Throw e.
Proof.
  apply (normalizeRecords_throws_on_nullish_element Node.runtime
           [JsObj [("customer", JsStr "Acme")]; JsNull]).
  apply Exists_cons_tl. apply Exists_cons_hd. reflexivity.
Defined.



(** A body without [salesData] is answered 400 and nothing is logged, even
    with a datastore service client. *)
Lemma analyze_missing_salesData_witness :
  analyze Node.runtime envLogging (JsObj [("analysisType", JsStr "pipeline")])
  = {| response :=
         Some {| status := 400;
                 body := JsObj [("error", JsStr "Missing salesData payload.")] |};
       logged := [];
       rejection := None |}.
Proof.
  apply (analyze_missing_salesData Node.runtime envLogging
           (JsObj [("analysisType", JsStr "pipeline")])).
  reflexivity.
Defined.

(** The contexts of [sampleRecords]. *)
Lemma formatContexts_deduplicates_witness :
  exists ctx,
    formatContexts sampleRecords = Normal ctx
    /\ firstOccurrences (map (fun r => field r "customer") sampleRecords) (customers ctx)
    /\ firstOccurrences (map (fun r => field r "brand") sampleRecords) (brands ctx)
    /\ firstOccurrences (map (fun r => field r "season") sampleRecords) (seasons ctx).
Proof.
  apply (formatContexts_deduplicates sampleRecords).
  repeat constructor.
Defined.

(** [null] normalizes to the empty result. *)
Lemma normalizeRecords_falsy_input_witness :
  normalizeRecords Node.runtime JsNull = Normal {| raw := ""; records := [] |}.
Proof.
  apply (normalizeRecords_falsy_input Node.runtime JsNull). reflexivity.
Defined.

(** CSV-like text is not JSON: no records. *)
Lemma normalizeRecords_unparsable_text_witness :
  normalizeRecords Node.runtime (JsStr "customer,amount")
  = Normal {| raw := "customer,amount"; records := [] |}.
Proof.
  apply (normalizeRecords_unparsable_text Node.runtime "customer,amount"
           (SyntaxError "Unexpected token in JSON")).
  - reflexivity.
  - vm_compute. reflexivity.
Defined.

(** [normalizeRecords] returns on the example elements. *)
Lemma normalizeRecords_returns_witness :
  exists r, normalizeRecords Node.runtime (JsArr exampleItems) = Normal r.
Proof.
  apply (normalizeRecords_returns Node.runtime exampleItems).
  repeat constructor; eexists; vm_compute; reflexivity.
Defined.

(** The pipeline prompt with one filter. *)
Lemma buildPrompt_pipeline_witness :
  exists prompt,
    buildPrompt Node.runtime "" (JsStr "pipeline") (JsObj [("brand", JsStr "ActiveLife")])
    = Normal prompt
    /\ includes pipelineFocus prompt = true.
Proof.
  apply (buildPrompt_pipeline Node.runtime "" (JsObj [("brand", JsStr "ActiveLife")])
           "brand: ActiveLife").
  reflexivity.
Defined.


(** * Further facts on concrete inputs *)

(** The JSON text [{"customer":"Acme"}] is an object, not an array: no
    records. *)
Lemma normalizeRecords_non_array_text_witness :
  normalizeRecords Node.runtime
    (JsStr ("{" ++ Node.dquote ++ "customer" ++ Node.dquote ++ ":"
                ++ Node.dquote ++ "Acme" ++ Node.dquote ++ "}"))
  = Normal {| raw := "{" ++ Node.dquote ++ "customer" ++ Node.dquote ++ ":"
                         ++ Node.dquote ++ "Acme" ++ Node.dquote ++ "}";
              records := [] |}.
Proof.
  apply (normalizeRecords_non_array_text Node.runtime _
           (JsObj [("customer", JsStr "Acme")])).
  - reflexivity.
  - vm_compute. reflexivity.
  - intros items H. discriminate H.
Defined.

(** The text [[{"amount":1e999}]] and the array it denotes. *)
Lemma normalizeRecords_text_as_array_witness :
  recordsOf (normalizeRecords Node.runtime (JsStr overflowText))
  = recordsOf (normalizeRecords Node.runtime (JsArr [JsObj [("amount", JsNum infinity)]]))
  /\ (forall r, normalizeRecords Node.runtime (JsStr overflowText) = Normal r ->
                raw r = overflowText).
Proof.
  apply (normalizeRecords_text_as_array Node.runtime overflowText
           [JsObj [("amount", JsNum infinity)]]).
  - reflexivity.
  - vm_compute. reflexivity.
Defined.


(** The records of the example elements are returned unchanged by a second
    normalization. *)
Lemma normalizeRecords_idempotent_witness :
  recordsOf (normalizeRecords Node.runtime (JsArr (records exampleNormalized)))
  = Normal (map (fun rec => setAmount rec (positiveZero (amountOf rec)))
                (records exampleNormalized)).
Proof.
  apply (normalizeRecords_idempotent Node.runtime (JsArr exampleItems) exampleNormalized).
  vm_compute. reflexivity.
Defined.

(** The two example records, as [normalizeRecords] returns them. *)
Lemma summarizeLocally_returns_witness :
  exists summary,
    summarizeLocally Node.runtime [exampleRecord "X" 100; exampleRecord "Y" 300] (JsObj [])
    = Normal summary
    /\ startsWith summaryNotice summary = true
    /\ includes
         ("Total pipeline value: $"
          ++ NumberToLocaleString Node.runtime
               (fold_left (fun s rec => (s + amountOrZero rec)%float)
                          [exampleRecord "X" 100; exampleRecord "Y" 300] zero)
          ++ ".") summary = true.
Proof.
  apply (summarizeLocally_returns Node.runtime
           [exampleRecord "X" 100; exampleRecord "Y" 300] (JsObj []) "").
  - discriminate.
  - repeat constructor; unfold namedRecord, exampleRecord;
      do 6 eexists; reflexivity.
  - reflexivity.
Defined.

(** The filters [{ customer: "", brand: null }]. *)
Lemma renderFilters_no_truthy_witness :
  renderFilters Node.runtime ", " (JsObj [("customer", JsStr ""); ("brand", JsNull)])
  = Normal "".
Proof.
  apply (renderFilters_no_truthy Node.runtime ", "
           (JsObj [("customer", JsStr ""); ("brand", JsNull)])
           [("customer", JsStr ""); ("brand", JsNull)]).
  - reflexivity.
  - repeat constructor.
Defined.

(** The customers of the two example records. *)
Lemma groupBy_keys_witness :
  NoDup (map fst [("X", SNum 100); ("Y", SNum 300)])
  /\ lookup "__proto__" [("X", SNum 100); ("Y", SNum 300)] = None
  /\ (forall r k,
        In r [exampleRecord "X" 100; exampleRecord "Y" 300] ->
        ToStringJs Node.runtime (JsOr (field r "customer") (JsStr "Unspecified"))
        = Normal k ->
        k <> "__proto__" ->
        lookup k [("X", SNum 100); ("Y", SNum 300)] <> None)
  /\ (forall k,
        lookup k [("X", SNum 100); ("Y", SNum 300)] <> None ->
        exists r, In r [exampleRecord "X" 100; exampleRecord "Y" 300] /\
                  ToStringJs Node.runtime (JsOr (field r "customer") (JsStr "Unspecified"))
                  = Normal k).
Proof.
  apply (groupBy_keys Node.runtime [exampleRecord "X" 100; exampleRecord "Y" 300]
           "customer" [("X", SNum 100); ("Y", SNum 300)]).
  vm_compute. reflexivity.
Defined.


(** The [trends] prompt with one filter. *)
Lemma buildPrompt_known_focus_witness :
  exists prompt,
    buildPrompt Node.runtime "" (JsStr "trends") (JsObj [("brand", JsStr "ActiveLife")])
    = Normal prompt
    /\ includes "Identify demand trends, seasonality, and drivers across customers and brands."
         prompt = true.
Proof.
  apply (buildPrompt_known_focus Node.runtime "" "trends"
           "Identify demand trends, seasonality, and drivers across customers and brands."
           (JsObj [("brand", JsStr "ActiveLife")]) "brand: ActiveLife").
  - left. reflexivity.
  - reflexivity.
Defined.

(** A completion with one choice, and one with none. *)
Lemma firstChoiceText_of_choices_witness :
  firstChoiceText
    (JsObj [("choices",
             JsArr [JsObj [("message", JsObj [("content", JsStr " ok ")])]])])
  = Normal (Some "ok")
  /\ firstChoiceText (JsObj [("choices", JsArr [])]) = Normal None.
Proof.
  split.
  - exact (proj1 (firstChoiceText_of_choices
                    (JsObj [("choices",
                             JsArr [JsObj [("message",
                                            JsObj [("content", JsStr " ok ")])]])])
                    [JsObj [("message", JsObj [("content", JsStr " ok ")])]]
                    eq_refl)
                 " ok " eq_refl).
  - exact (proj1 (proj2 (firstChoiceText_of_choices
                           (JsObj [("choices", JsArr [])]) [] eq_refl))
                 eq_refl).
Defined.

(** A [null] element rejects the handler's promise, with a datastore
    service client too. *)
Lemma analyze_rejects_witness :
  analyze Node.runtime envLogging (JsObj [("salesData", JsArr [JsNull])])
  = rejected (TypeError "Cannot read properties of null (reading 'customer')").
Proof.
  apply (analyze_rejects Node.runtime envLogging (JsObj [("salesData", JsArr [JsNull])])
           (TypeError "Cannot read properties of null (reading 'customer')")).
  - reflexivity.
  - left. reflexivity.
Defined.

(** A client that raises: 500, and one row that holds the error's message. *)
Lemma analyze_ai_failure_witness :
  response (analyze Node.runtime (envWith failingClient) exampleRequest)
  = Some analysisFailed
  /\ logged (analyze Node.runtime (envWith failingClient) exampleRequest)
     = [ {| analysis_type := JsStr "trends";
            row_filters := JsObj [];
            result_preview := "";
            succeeded := false;
            error_message := Some "429 Too Many Requests" |} ].
Proof.
  pose proof (analyze_ai_failure Node.runtime (envWith failingClient) exampleRequest
                failingClient
                {| raw := Node.JSON_stringify (requestSalesData exampleRequest);
                   records := [ exampleRecord "X" 100; exampleRecord "Y" 300 ] |}
                (HostError "429 Too Many Requests")
                eq_refl eq_refl) as H.
  destruct H as (Hresponse & _ & Hlogged & _).
  - vm_compute. reflexivity.
  - vm_compute. reflexivity.
  - split; [exact Hresponse | exact Hlogged].
Defined.


(** A row that is [null] among the rows. *)
Lemma formatContexts_throws_witness :
  exists e, formatContexts [JsObj [("customer", JsStr "A")]; JsNull] = Throw e.
Proof.
  apply (formatContexts_throws [JsObj [("customer", JsStr "A")]; JsNull]).
  apply Exists_cons_tl. apply Exists_cons_hd. reflexivity.
Defined.

(** A query whose result carries an error gives the sample contexts. *)
Lemma getContexts_falls_back_witness :
  getContexts (Some failingReadClient)
  = Normal {| status := 200; body := contextsBody "sample" sampleContexts |}.
Proof.
  apply (getContexts_falls_back (Some failingReadClient)).
  right. right.
  exists failingReadClient,
    {| data := JsNull; error := JsObj [("message", JsStr "permission denied")] |}.
  split; [reflexivity|]. split; [reflexivity|].
  left. reflexivity.
Defined.

(** An empty table gives three empty lists with source [supabase]. *)
Lemma getContexts_from_store_witness :
  getContexts (Some emptyTableClient)
  = Normal {| status := 200;
              body := JsObj [ ("source", JsStr "supabase"); ("customers", JsArr []);
                              ("brands", JsArr []); ("seasons", JsArr []) ] |}.
Proof.
  apply (getContexts_from_store emptyTableClient
           {| data := JsArr []; error := JsNull |} []).
  - reflexivity.
  - reflexivity.
  - reflexivity.
  - apply Forall_nil.
Defined.
